(** * TempHumidDisplay: thermo-hygrometer display with humidifier relay

    Shallow embedding of the Arduino sketch [TempHumidDisplay.ino] (the
    revision with configurable humidifier thresholds) and the properties
    of its mode/display state machine, threshold editing, sensor extrema
    tracking, relay hysteresis and EEPROM recovery.

    The sketch is a single polling loop over global variables.  The
    globals, the function-local statics and the board (EEPROM cell, relay
    pin, millisecond clock) are gathered in one record [World]; every
    procedure of the sketch is a function on [World].  Calls into the
    display, EEPROM, GPIO and serial libraries are recorded as [Effect]s;
    procedures that only draw are the list of effects they issue. *)

From Stdlib Require Import ZArith List Bool Ascii String Lia.
Import ListNotations.
Local Open Scope Z_scope.

(** ** Machine integers of the target

    The sketch is written for an AVR Arduino: [byte] is 8 bits unsigned,
    [int] 16 bits signed, [long] 32 bits signed and [unsigned long] 32
    bits unsigned.  Values are kept in [Z]; every store into a narrower
    type is written out as the wrap-around it performs. *)

Definition to_byte (z : Z) : Z := z mod 2 ^ 8.
Definition to_int (z : Z) : Z := (z + 2 ^ 15) mod 2 ^ 16 - 2 ^ 15.
Definition to_uint (z : Z) : Z := z mod 2 ^ 16.
Definition to_long (z : Z) : Z := (z + 2 ^ 31) mod 2 ^ 32 - 2 ^ 31.
Definition to_ulong (z : Z) : Z := z mod 2 ^ 32.

(** Arduino's binary literals [B00110111], most significant bit first. *)
Fixpoint binary_digits (s : string) (acc : Z) : Z :=
  match s with
  | EmptyString => acc
  | String c rest =>
      binary_digits rest (2 * acc + (if Ascii.eqb c "1"%char then 1 else 0))
  end.

Definition B (s : string) : Z := binary_digits s 0.
Arguments B s%_string.

(** ** Constants *)

Definition DISPLAY_NCHIP : Z := 1.
Definition DEBOUNCE_DELAY_MS : Z := 20.

Definition PIN_DISPLAY_CS : Z := 9.
Definition PIN_SENSOR_DATA : Z := 4.
Definition PIN_BUTTON_ACTION : Z := 2.
Definition PIN_BUTTON_NEXT_MODE : Z := 3.
Definition PIN_HUMIDIFIER_RELAY : Z := 5.

Definition HUMIDIFIER_THRESHOLD_STEPS : Z := 2.

(** Lowest value that can be configured. *)
Definition HUMIDIFIER_THRESHOLD_MININUM : Z := 60.

(** Magic number read/written from the EEPROM. *)
Definition EEPROM_MAGIC_NUMBER : Z := 0xBABE.

(** ** Data model *)

Inductive DisplayMode : Type :=
| live
| min
| max
| humidifierEnabled
| humidifierLowerOnThreshold
| humidifierUpperOffThreshold
| END.

Definition DisplayMode_to_Z (m : DisplayMode) : Z :=
  match m with
  | live => 0
  | min => 1
  | max => 2
  | humidifierEnabled => 3
  | humidifierLowerOnThreshold => 4
  | humidifierUpperOffThreshold => 5
  | END => 6
  end.

Definition DisplayMode_of_Z (z : Z) : DisplayMode :=
  match z with
  | 0 => live
  | 1 => min
  | 2 => max
  | 3 => humidifierEnabled
  | 4 => humidifierLowerOnThreshold
  | 5 => humidifierUpperOffThreshold
  | _ => END
  end.

Module Cfg.
(** [struct PersistentConfiguration]: [magicNumber] is an [int], the two
    thresholds are [byte]s. *)
Record PersistentConfiguration : Type := mk {
  magicNumber : Z;
  humidifierLowerOnThreshold : Z;
  humidifierUpperOffThreshold : Z;
  humidifierEnabled : bool
}.

(** The default member initialisers, [PersistentConfiguration()]. *)
Definition default : PersistentConfiguration :=
  {| magicNumber := to_int EEPROM_MAGIC_NUMBER;
     humidifierLowerOnThreshold := 80;
     humidifierUpperOffThreshold := 96;
     humidifierEnabled := true |}.

Definition set_lower (v : Z) (c : PersistentConfiguration) :=
  {| magicNumber := magicNumber c;
     humidifierLowerOnThreshold := v;
     humidifierUpperOffThreshold := humidifierUpperOffThreshold c;
     humidifierEnabled := humidifierEnabled c |}.

Definition set_upper (v : Z) (c : PersistentConfiguration) :=
  {| magicNumber := magicNumber c;
     humidifierLowerOnThreshold := humidifierLowerOnThreshold c;
     humidifierUpperOffThreshold := v;
     humidifierEnabled := humidifierEnabled c |}.

Definition set_enabled (v : bool) (c : PersistentConfiguration) :=
  {| magicNumber := magicNumber c;
     humidifierLowerOnThreshold := humidifierLowerOnThreshold c;
     humidifierUpperOffThreshold := humidifierUpperOffThreshold c;
     humidifierEnabled := v |}.

(** [magicNumber != EEPROM_MAGIC_NUMBER]: the literal [0xBABE] does not
    fit a 16-bit [int], so it is an [unsigned int] and the field is
    converted to [unsigned int] for the comparison. *)
Definition magic_mismatch (c : PersistentConfiguration) : bool :=
  negb (to_uint (magicNumber c) =? EEPROM_MAGIC_NUMBER).
End Cfg.

(** [class DisplayData]: two [int]s. *)
Record DisplayData : Type := mkDisplayData {
  temperature : Z;
  humidity : Z
}.

(** ** Library calls issued by the sketch *)

Inductive Effect : Type :=
| display_write (address data nDevice : Z)
| display_printDigit (number nDevice startDigit : Z)
| display_setBright (level : Z)
| display_on (nDevice : Z)
| EEPROM_put (address : Z) (value : Cfg.PersistentConfiguration)
| digitalWrite (pin : Z) (level : bool)
| pinMode_OUTPUT (pin : Z)
| sensor_setup (pin : Z)
| delay (ms : Z)
| Serial_begin (baud : Z)
| Serial_println (msg : string).

(** ** Program and board state *)

Record World : Type := mkWorld {
  (* globals of the sketch *)
  persistentConfiguration : Cfg.PersistentConfiguration;
  humidifierOn : bool;
  currentMode : DisplayMode;
  modeSelectedTime : Z;
  liveData : DisplayData;
  maxData : DisplayData;
  minData : DisplayData;
  (* function-local statics *)
  brightness : Z;
  hasInitializedMinMax : bool;
  nextSensorSampling : Z;
  (* board *)
  eeprom : Cfg.PersistentConfiguration;
  relayPin : bool;
  clock : Z;
  log : list Effect
}.

Definition set_persistentConfiguration (v : Cfg.PersistentConfiguration) (w : World) :=
  mkWorld v (humidifierOn w) (currentMode w) (modeSelectedTime w)
    (liveData w) (maxData w) (minData w) (brightness w)
    (hasInitializedMinMax w) (nextSensorSampling w)
    (eeprom w) (relayPin w) (clock w) (log w).

Definition set_humidifierOn (v : bool) (w : World) :=
  mkWorld (persistentConfiguration w) v (currentMode w) (modeSelectedTime w)
    (liveData w) (maxData w) (minData w) (brightness w)
    (hasInitializedMinMax w) (nextSensorSampling w)
    (eeprom w) (relayPin w) (clock w) (log w).

Definition set_currentMode (v : DisplayMode) (w : World) :=
  mkWorld (persistentConfiguration w) (humidifierOn w) v (modeSelectedTime w)
    (liveData w) (maxData w) (minData w) (brightness w)
    (hasInitializedMinMax w) (nextSensorSampling w)
    (eeprom w) (relayPin w) (clock w) (log w).

Definition set_modeSelectedTime (v : Z) (w : World) :=
  mkWorld (persistentConfiguration w) (humidifierOn w) (currentMode w) v
    (liveData w) (maxData w) (minData w) (brightness w)
    (hasInitializedMinMax w) (nextSensorSampling w)
    (eeprom w) (relayPin w) (clock w) (log w).

Definition set_liveData (v : DisplayData) (w : World) :=
  mkWorld (persistentConfiguration w) (humidifierOn w) (currentMode w)
    (modeSelectedTime w) v (maxData w) (minData w) (brightness w)
    (hasInitializedMinMax w) (nextSensorSampling w)
    (eeprom w) (relayPin w) (clock w) (log w).

Definition set_maxData (v : DisplayData) (w : World) :=
  mkWorld (persistentConfiguration w) (humidifierOn w) (currentMode w)
    (modeSelectedTime w) (liveData w) v (minData w) (brightness w)
    (hasInitializedMinMax w) (nextSensorSampling w)
    (eeprom w) (relayPin w) (clock w) (log w).

Definition set_minData (v : DisplayData) (w : World) :=
  mkWorld (persistentConfiguration w) (humidifierOn w) (currentMode w)
    (modeSelectedTime w) (liveData w) (maxData w) v (brightness w)
    (hasInitializedMinMax w) (nextSensorSampling w)
    (eeprom w) (relayPin w) (clock w) (log w).

Definition set_brightness (v : Z) (w : World) :=
  mkWorld (persistentConfiguration w) (humidifierOn w) (currentMode w)
    (modeSelectedTime w) (liveData w) (maxData w) (minData w) v
    (hasInitializedMinMax w) (nextSensorSampling w)
    (eeprom w) (relayPin w) (clock w) (log w).

Definition set_hasInitializedMinMax (v : bool) (w : World) :=
  mkWorld (persistentConfiguration w) (humidifierOn w) (currentMode w)
    (modeSelectedTime w) (liveData w) (maxData w) (minData w) (brightness w)
    v (nextSensorSampling w)
    (eeprom w) (relayPin w) (clock w) (log w).

Definition set_nextSensorSampling (v : Z) (w : World) :=
  mkWorld (persistentConfiguration w) (humidifierOn w) (currentMode w)
    (modeSelectedTime w) (liveData w) (maxData w) (minData w) (brightness w)
    (hasInitializedMinMax w) v
    (eeprom w) (relayPin w) (clock w) (log w).

Definition set_eeprom (v : Cfg.PersistentConfiguration) (w : World) :=
  mkWorld (persistentConfiguration w) (humidifierOn w) (currentMode w)
    (modeSelectedTime w) (liveData w) (maxData w) (minData w) (brightness w)
    (hasInitializedMinMax w) (nextSensorSampling w)
    v (relayPin w) (clock w) (log w).

Definition set_relayPin (v : bool) (w : World) :=
  mkWorld (persistentConfiguration w) (humidifierOn w) (currentMode w)
    (modeSelectedTime w) (liveData w) (maxData w) (minData w) (brightness w)
    (hasInitializedMinMax w) (nextSensorSampling w)
    (eeprom w) v (clock w) (log w).

Definition set_clock (v : Z) (w : World) :=
  mkWorld (persistentConfiguration w) (humidifierOn w) (currentMode w)
    (modeSelectedTime w) (liveData w) (maxData w) (minData w) (brightness w)
    (hasInitializedMinMax w) (nextSensorSampling w)
    (eeprom w) (relayPin w) v (log w).

Definition set_log (v : list Effect) (w : World) :=
  mkWorld (persistentConfiguration w) (humidifierOn w) (currentMode w)
    (modeSelectedTime w) (liveData w) (maxData w) (minData w) (brightness w)
    (hasInitializedMinMax w) (nextSensorSampling w)
    (eeprom w) (relayPin w) (clock w) v.

(** The state at power-up, before [setup] runs: the global initialisers of
    the sketch, zero-initialised statics, and a board whose EEPROM cell
    holds [stored]. *)
Definition power_up (stored : Cfg.PersistentConfiguration) : World :=
  {| persistentConfiguration := Cfg.default;
     humidifierOn := false;
     currentMode := live;
     modeSelectedTime := 0;
     liveData := mkDisplayData 0 0;
     maxData := mkDisplayData 0 0;
     minData := mkDisplayData 0 0;
     brightness := 0;
     hasInitializedMinMax := false;
     nextSensorSampling := 0;
     eeprom := stored;
     relayPin := false;
     clock := 0;
     log := [] |}.

(** ** Performing library calls

    [perform e w] records the call and applies what it does to the board:
    [EEPROM.put] replaces the stored record, [digitalWrite] on the relay
    pin sets its level, [delay] lets the millisecond clock advance. *)
Definition perform (e : Effect) (w : World) : World :=
  let w := set_log (log w ++ [e]) w in
  match e with
  | EEPROM_put _ value => set_eeprom value w
  | digitalWrite pin level =>
      if pin =? PIN_HUMIDIFIER_RELAY then set_relayPin level w else w
  | delay ms => set_clock (to_ulong (clock w + ms)) w
  | _ => w
  end.

Definition perform_all (es : list Effect) (w : World) : World :=
  fold_left (fun w e => perform e w) es w.

(** [millis()] *)
Definition millis (w : World) : Z := clock w.

(** ** Display data printing methods *)

(** Returns whether any blinking data should currently show its first or
    second content: [(millis() - modeSelectedTime) % 1000 > 500].  The
    subtraction is done in [unsigned long], to which the [long]
    [modeSelectedTime] is converted. *)
Definition getBlinkStatus (w : World) : bool :=
  500 <? to_ulong (millis w - modeSelectedTime w) mod 1000.

(** Prints the status of the given bool to the right side as either
    [ OFF] or [ On ]. *)
Definition printBooleanConfigurationStatus (status : bool) : list Effect :=
  if status then
    [ display_write 4 (B "00000000") 0;
      display_write 3 (B "01111110") 0;  (* O *)
      display_write 2 (B "00010101") 0;  (* n *)
      display_write 1 (B "00000000") 0 ]
  else
    [ display_write 4 (B "00000000") 0;
      display_write 3 (B "01111110") 0;  (* O *)
      display_write 2 (B "01000111") 0;  (* F *)
      display_write 1 (B "01000111") 0 ] (* F *).

(** Prints [HUFI ----] for configuring the humidifier. *)
Definition printHumidifierConfigPrefix : list Effect :=
  [ display_write 8 (B "00110111") 0;  (* H *)
    display_write 7 (B "00111110") 0;  (* U *)
    display_write 6 (B "01000111") 0;  (* F *)
    display_write 5 (B "00000110") 0 ] (* I *).

(** Prints the given value (between 0 and 99): the higher digit is
    cleared when the value has one digit, values above 99 are capped, and
    the number is handed to the library's [printDigit].  The [address]
    parameter of [display.write] is a [byte]. *)
Definition printTwoDigitValue (value digit : Z) : list Effect :=
  if value <? 10 then
    [ display_write (to_byte (digit + 2)) 0 0;
      display_printDigit value DISPLAY_NCHIP digit ]
  else if value >? 99 then
    [ display_printDigit 99 DISPLAY_NCHIP digit ]
  else
    [ display_printDigit value DISPLAY_NCHIP digit ].

(** Prints [---- XXrH] where XX is the given value.  The "rH" digits
    blink, toggling between "rH" and the given blink byte. *)
Definition printHumidifierConfigValueWithBlinking
    (w : World) (value blinkByte : Z) : list Effect :=
  (if getBlinkStatus w then
     [ display_write 2 (B "00000101") 0;  (* r *)
       display_write 1 (B "00110111") 0 ] (* H *)
   else
     [ display_write 2 blinkByte 0;
       display_write 1 blinkByte 0 ])
  ++ printTwoDigitValue value 2.

(** Prints [--°C --rH]. *)
Definition printCelsiusAndRelHumiditySigns : list Effect :=
  [ display_write 6 (B "01100011") 0;  (* ° *)
    display_write 5 (B "01001110") 0;  (* C *)
    display_write 2 (B "00000101") 0;  (* r *)
    display_write 1 (B "00110111") 0 ] (* H *).

(** Prints the upper bars used for blinking in the max mode. *)
Definition printTempHumidityMaximumSigns : list Effect :=
  [ display_write 6 (B "01000000") 0;
    display_write 5 (B "01000000") 0;
    display_write 2 (B "01000000") 0;
    display_write 1 (B "01000000") 0 ].

(** Prints the lower bars used for blinking in the min mode. *)
Definition printTempHumidityMinimumSigns : list Effect :=
  [ display_write 6 (B "00001000") 0;
    display_write 5 (B "00001000") 0;
    display_write 2 (B "00001000") 0;
    display_write 1 (B "00001000") 0 ].

(** Prints temperature and humidity data from the given DisplayData.
    [signsFunction] is a function pointer; [None] is [NULL]. *)
Definition printTempAndHumidityOverview
    (w : World) (data : DisplayData) (signsFunction : option (list Effect))
  : list Effect :=
  (if getBlinkStatus w || (match signsFunction with None => true | _ => false end)
   then printCelsiusAndRelHumiditySigns
   else match signsFunction with
        | Some signs => signs
        | None => []
        end)
  ++ printTwoDigitValue (temperature data) 6
  ++ printTwoDigitValue (humidity data) 2.

Definition RESET_ANIMATION_MAX : list Z := [6; 1; 2; 3; 4; 5].
Definition RESET_ANIMATION_MIN : list Z := [3; 4; 5; 6; 1; 2].

(** The loop [for (int i = 0; i < 6; i++)] over the six entries. *)
Definition presentResetAnimationWithSegments (activeSegment : list Z)
  : list Effect :=
  flat_map
    (fun i =>
       let segment := nth (Z.to_nat i) activeSegment 0 in
       [ display_write 3 (to_byte (Z.shiftl 1 segment)) 0;
         display_write 4 (to_byte (Z.shiftl 1 segment)) 0;
         display_write 7 (to_byte (Z.shiftl 1 segment)) 0;
         display_write 8 (to_byte (Z.shiftl 1 segment)) 0;
         delay 50 ])
    [0; 1; 2; 3; 4; 5].

Definition presentResetAnimation (w : World) : list Effect :=
  match currentMode w with
  | min => presentResetAnimationWithSegments RESET_ANIMATION_MIN
  | max => presentResetAnimationWithSegments RESET_ANIMATION_MAX
  | _ => []
  end.

(** ** Updating data *)

Definition updateDisplay (w : World) : list Effect :=
  match currentMode w with
  | live =>
      printTempAndHumidityOverview w (liveData w) None
  | min =>
      printTempAndHumidityOverview w (minData w)
        (Some printTempHumidityMinimumSigns)
  | max =>
      printTempAndHumidityOverview w (maxData w)
        (Some printTempHumidityMaximumSigns)
  | humidifierEnabled =>
      printHumidifierConfigPrefix
      ++ printBooleanConfigurationStatus
           (Cfg.humidifierEnabled (persistentConfiguration w))
  | humidifierLowerOnThreshold =>
      printHumidifierConfigPrefix
      ++ printHumidifierConfigValueWithBlinking w
           (Cfg.humidifierLowerOnThreshold (persistentConfiguration w))
           (B "00001000")
  | humidifierUpperOffThreshold =>
      printHumidifierConfigPrefix
      ++ printHumidifierConfigValueWithBlinking w
           (Cfg.humidifierUpperOffThreshold (persistentConfiguration w))
           (B "01000000")
  | END => []
  end.

(** Runs a drawing procedure on the current state. *)
Definition draw (f : World -> list Effect) (w : World) : World :=
  perform_all (f w) w.

Definition updateRelayStatus (w : World) : World :=
  let w :=
    if negb (humidifierOn w)
       && (humidity (liveData w)
           <=? Cfg.humidifierLowerOnThreshold (persistentConfiguration w))
    then set_humidifierOn true w
    else if humidifierOn w
            && (humidity (liveData w)
                >=? Cfg.humidifierUpperOffThreshold (persistentConfiguration w))
    then set_humidifierOn false w
    else w in
  perform
    (digitalWrite PIN_HUMIDIFIER_RELAY
       (negb (humidifierOn w
              && Cfg.humidifierEnabled (persistentConfiguration w))))
    w.

(** [reading] is what [round(sensor.getTemperature())] and
    [round(sensor.getHumidity())] deliver, stored into the two [int]s. *)
Definition updateSensorData (reading : DisplayData) (w : World) : World :=
  let w := set_liveData reading w in
  let w :=
    if Bool.eqb (hasInitializedMinMax w) false then
      let w := set_minData (liveData w) w in
      let w := set_maxData (liveData w) w in
      set_hasInitializedMinMax true w
    else w in
  let w :=
    if temperature (liveData w) <? temperature (minData w)
    then set_minData (mkDisplayData (temperature (liveData w))
                                    (humidity (minData w))) w
    else w in
  let w :=
    if temperature (liveData w) >? temperature (maxData w)
    then set_maxData (mkDisplayData (temperature (liveData w))
                                    (humidity (maxData w))) w
    else w in
  let w :=
    if humidity (liveData w) <? humidity (minData w)
    then set_minData (mkDisplayData (temperature (minData w))
                                    (humidity (liveData w))) w
    else w in
  let w :=
    if humidity (liveData w) >? humidity (maxData w)
    then set_maxData (mkDisplayData (temperature (maxData w))
                                    (humidity (liveData w))) w
    else w in
  w.

(** ** Button handlers *)

Definition onActionButton (w : World) : World :=
  let w :=
    match currentMode w with
    | live =>
        let w :=
          if brightness w =? 0 then set_brightness 8 w
          else set_brightness 0 w in
        perform (display_setBright (brightness w)) w
    | max =>
        let w := set_maxData (liveData w) w in
        let w := draw updateDisplay w in
        draw presentResetAnimation w
    | min =>
        let w := set_minData (liveData w) w in
        let w := draw updateDisplay w in
        draw presentResetAnimation w
    | humidifierEnabled =>
        let w :=
          set_persistentConfiguration
            (Cfg.set_enabled
               (negb (Cfg.humidifierEnabled (persistentConfiguration w)))
               (persistentConfiguration w)) w in
        perform (EEPROM_put 0 (persistentConfiguration w)) w
    | humidifierLowerOnThreshold =>
        let w :=
          set_persistentConfiguration
            (Cfg.set_lower
               (to_byte (Cfg.humidifierLowerOnThreshold (persistentConfiguration w)
                         + HUMIDIFIER_THRESHOLD_STEPS))
               (persistentConfiguration w)) w in
        let w :=
          if Cfg.humidifierLowerOnThreshold (persistentConfiguration w)
             >=? Cfg.humidifierUpperOffThreshold (persistentConfiguration w)
          then set_persistentConfiguration
                 (Cfg.set_lower HUMIDIFIER_THRESHOLD_MININUM
                    (persistentConfiguration w)) w
          else w in
        perform (EEPROM_put 0 (persistentConfiguration w)) w
    | humidifierUpperOffThreshold =>
        let w :=
          set_persistentConfiguration
            (Cfg.set_upper
               (to_byte (Cfg.humidifierUpperOffThreshold (persistentConfiguration w)
                         + HUMIDIFIER_THRESHOLD_STEPS))
               (persistentConfiguration w)) w in
        let w :=
          if Cfg.humidifierUpperOffThreshold (persistentConfiguration w)
             >? 100 - HUMIDIFIER_THRESHOLD_STEPS
          then set_persistentConfiguration
                 (Cfg.set_upper
                    (to_byte (Cfg.humidifierLowerOnThreshold (persistentConfiguration w)
                              + HUMIDIFIER_THRESHOLD_STEPS))
                    (persistentConfiguration w)) w
          else w in
        perform (EEPROM_put 0 (persistentConfiguration w)) w
    | END => w
    end in
  draw updateDisplay w.

Definition onNextModeButton (w : World) : World :=
  let w :=
    set_currentMode
      (DisplayMode_of_Z
         ((DisplayMode_to_Z (currentMode w) + 1) mod DisplayMode_to_Z END)) w in
  let w := set_modeSelectedTime (to_long (millis w)) w in
  draw updateDisplay w.

(** ** Arduino methods *)

(** [EEPROM.get(0, persistentConfiguration)] copies the stored record
    into the global.  The registration of the two button callbacks has no
    effect on the state and is left to [loop]'s inputs. *)
Definition setup (w : World) : World :=
  let w := perform (Serial_begin 9600) w in
  let w := set_persistentConfiguration (eeprom w) w in
  let w :=
    if Cfg.magic_mismatch (persistentConfiguration w) then
      let w := perform (EEPROM_put 0 Cfg.default) w in
      let w := set_persistentConfiguration (eeprom w) w in
      perform (Serial_println "Initialized EEPROM default config") w
    else
      perform (Serial_println "Loaded config from EEPROM") w in
  let w := perform (pinMode_OUTPUT PIN_HUMIDIFIER_RELAY) w in
  let w := perform (display_on DISPLAY_NCHIP) w in
  perform (sensor_setup PIN_SENSOR_DATA) w.

(** What the environment supplies to one iteration of [loop]: the time
    spent since the previous iteration, whether the debouncers fire the
    two callbacks in [process(now)], the sensor's minimum sampling period
    and the rounded reading it would deliver. *)
Record Inputs : Type := mkInputs {
  elapsed : Z;
  actionButtonFires : bool;
  nextModeButtonFires : bool;
  minimumSamplingPeriod : Z;
  reading : DisplayData
}.

Definition loop (i : Inputs) (w : World) : World :=
  let w := set_clock (to_ulong (clock w + elapsed i)) w in
  let w := perform (delay 2) w in
  let now := millis w in
  let w := if actionButtonFires i then onActionButton w else w in
  let w := if nextModeButtonFires i then onNextModeButton w else w in
  let w :=
    if now >? nextSensorSampling w then
      let w :=
        set_nextSensorSampling (to_ulong (now + minimumSamplingPeriod i)) w in
      let w := updateSensorData (reading i) w in
      updateRelayStatus w
    else w in
  draw updateDisplay w.

(** The sketch's life after power-up: [setup] once, then [loop] forever;
    [run] is a finite prefix of the iterations. *)
Definition run (inputs : list Inputs) (w : World) : World :=
  fold_left (fun w i => loop i w) inputs w.

Definition boot (stored : Cfg.PersistentConfiguration) : World :=
  setup (power_up stored).

(** ** Reading a sequence of library calls *)

(** The segment byte most recently written with [display.write] to the
    digit register [address], if any. *)
Fixpoint lastWrite (address : Z) (calls : list Effect) : option Z :=
  match calls with
  | [] => None
  | display_write a data _ :: rest =>
      match lastWrite address rest with
      | Some later => Some later
      | None => if a =? address then Some data else None
      end
  | _ :: rest => lastWrite address rest
  end.

(** The numbers handed to [display.printDigit] with their start digit. *)
Fixpoint printedNumbers (calls : list Effect) : list (Z * Z) :=
  match calls with
  | [] => []
  | display_printDigit number _ startDigit :: rest =>
      (number, startDigit) :: printedNumbers rest
  | _ :: rest => printedNumbers rest
  end.

(** The levels written with [digitalWrite] to the relay pin. *)
Fixpoint relayWrites (calls : list Effect) : list bool :=
  match calls with
  | [] => []
  | digitalWrite pin level :: rest =>
      if pin =? PIN_HUMIDIFIER_RELAY then level :: relayWrites rest
      else relayWrites rest
  | _ :: rest => relayWrites rest
  end.

(** The records written with [EEPROM.put]. *)
Fixpoint eepromWrites (calls : list Effect) : list Cfg.PersistentConfiguration :=
  match calls with
  | [] => []
  | EEPROM_put _ value :: rest => value :: eepromWrites rest
  | _ :: rest => eepromWrites rest
  end.

(** The segments (bit numbers 0 to 6 of the sketch's header comment) that
    a segment byte lights. *)
Definition litSegments (data : Z) : list Z :=
  filter (Z.testbit data) [0; 1; 2; 3; 4; 5; 6].

(** ** Notions used by the properties *)

(** Milliseconds into the running 1000 ms blink cycle, as
    [getBlinkStatus] computes them. *)
Definition cyclePosition (w : World) : Z :=
  to_ulong (millis w - modeSelectedTime w) mod 1000.

(** The digit registers that carry the unit signs or the mode marker. *)
Definition signPositions (m : DisplayMode) : list Z :=
  match m with
  | live | min | max => [6; 5; 2; 1]
  | humidifierLowerOnThreshold | humidifierUpperOffThreshold => [2; 1]
  | _ => []
  end.

(** What one rendering leaves on the sign positions of the active mode. *)
Definition shownSigns (w : World) : list (option Z) :=
  map (fun p => lastWrite p (updateDisplay w)) (signPositions (currentMode w)).

(** "°C" and "rH", respectively "rH" alone. *)
Definition normalSigns (m : DisplayMode) : list (option Z) :=
  match m with
  | live | min | max =>
      [Some (B "01100011"); Some (B "01001110");
       Some (B "00000101"); Some (B "00110111")]
  | humidifierLowerOnThreshold | humidifierUpperOffThreshold =>
      [Some (B "00000101"); Some (B "00110111")]
  | _ => []
  end.

(** The marker of a mode: the bottom bar (segment 3) for the minimum and
    the lower threshold, the top bar (segment 6) for the maximum and the
    upper threshold. *)
Definition markerSigns (m : DisplayMode) : list (option Z) :=
  match m with
  | min => repeat (Some (B "00001000")) 4
  | max => repeat (Some (B "01000000")) 4
  | humidifierLowerOnThreshold => repeat (Some (B "00001000")) 2
  | humidifierUpperOffThreshold => repeat (Some (B "01000000")) 2
  | _ => []
  end.

(** The start digits handed to [printDigit], which places the digits of
    a number on the registers above its start digit. *)
Definition valueStartDigits (m : DisplayMode) : list Z :=
  match m with
  | live | min | max => [6; 2]
  | humidifierLowerOnThreshold | humidifierUpperOffThreshold => [2]
  | _ => []
  end.

Definition blinkingModes : list DisplayMode :=
  [min; max; humidifierLowerOnThreshold; humidifierUpperOffThreshold].

(** The sign positions as the specification words them: the normal
    glyphs in the first half of the cycle, the marker in the second. *)
Definition spec_shownSigns (w : World) : list (option Z) :=
  if cyclePosition w <? 500 then normalSigns (currentMode w)
  else markerSigns (currentMode w).

(** The blink phase as the specification words it: false on [0, 500),
    true on [500, 1000). *)
Definition spec_blinkPhase (t anchor : Z) : bool :=
  500 <=? (t - anchor) mod 1000.

(** The segment byte that [printTwoDigitValue] leaves on the tens
    position [digit + 2]. *)
Definition tensWrite (value digit : Z) : option Z :=
  lastWrite (to_byte (digit + 2)) (printTwoDigitValue value digit).

(** The segments of the glyph "0": every segment but the middle bar,
    which the sketch writes as [B01111110] for the letter O. *)
Definition zeroGlyphSegments : list Z := litSegments (B "01111110").

(** The two-digit renderer as the specification words it: the number is
    clamped to [0, 99] and a value below 10 gets the glyph "0" on the tens
    position. *)
Definition spec_twoDigitRendering (value digit : Z) : Prop :=
  printedNumbers (printTwoDigitValue value digit)
  = [(Z.max 0 (Z.min 99 value), digit)]
  /\ (value < 10 ->
      exists data, tensWrite value digit = Some data
                   /\ litSegments data = zeroGlyphSegments).

(** The relay flag after each of a sequence of sampling ticks. *)
Fixpoint relayTrajectory (readings : list DisplayData) (w : World) : list bool :=
  match readings with
  | [] => []
  | r :: rest =>
      let w := updateRelayStatus (updateSensorData r w) in
      humidifierOn w :: relayTrajectory rest w
  end.

(** Feeding a sequence of readings to the sample tracker. *)
Definition samples (readings : list DisplayData) (w : World) : World :=
  fold_left (fun w r => updateSensorData r w) readings w.

Definition extrema_ok (w : World) : Prop :=
  temperature (minData w) <= temperature (liveData w) <= temperature (maxData w)
  /\ humidity (minData w) <= humidity (liveData w) <= humidity (maxData w).

Definition thresholds_ok (c : Cfg.PersistentConfiguration) : Prop :=
  60 <= Cfg.humidifierLowerOnThreshold c <= 100
  /\ 60 <= Cfg.humidifierUpperOffThreshold c <= 100
  /\ Cfg.humidifierLowerOnThreshold c < Cfg.humidifierUpperOffThreshold c.

(** Whether an iteration of [loop] started in [w] with inputs [i] samples
    the sensor: [now > nextSensorSampling], [now] taken after [delay(2)]. *)
Definition samplingTick (i : Inputs) (w : World) : bool :=
  to_ulong (to_ulong (clock w + elapsed i) + 2) >? nextSensorSampling w.

(** A state with the given mode and thresholds, everything else as after
    a first boot. *)
Definition editing (m : DisplayMode) (lower upper : Z) : World :=
  set_currentMode m
    (set_persistentConfiguration
       (Cfg.set_upper upper (Cfg.set_lower lower Cfg.default))
       (boot Cfg.default)).

(** [quiet w w']: going from [w] to [w'] the relay pin was not written
    and kept its level, and the relay flag is unchanged. *)
Definition quiet (w w' : World) : Prop :=
  relayPin w' = relayPin w
  /\ humidifierOn w' = humidifierOn w
  /\ nextSensorSampling w' = nextSensorSampling w
  /\ exists calls, log w' = log w ++ calls /\ relayWrites calls = [].

(** Whether none of the iterations of [loop] on [inputs], started in [w],
    samples the sensor. *)
Fixpoint noSamplingTick (inputs : list Inputs) (w : World) : bool :=
  match inputs with
  | [] => true
  | i :: rest => negb (samplingTick i w) && noSamplingTick rest (loop i w)
  end.

(** The two buttons, for sequences of presses. *)
Inductive Button : Type := ActionButton | NextModeButton.

Definition press (w : World) (b : Button) : World :=
  match b with
  | ActionButton => onActionButton w
  | NextModeButton => onNextModeButton w
  end.

(** What the increments maintain from the defaults on: even thresholds
    with 60 <= lower < upper <= 98. *)
Definition thresholds_inv (c : Cfg.PersistentConfiguration) : Prop :=
  60 <= Cfg.humidifierLowerOnThreshold c
  /\ Cfg.humidifierLowerOnThreshold c < Cfg.humidifierUpperOffThreshold c
  /\ Cfg.humidifierUpperOffThreshold c <= 98
  /\ Cfg.humidifierLowerOnThreshold c mod 2 = 0
  /\ Cfg.humidifierUpperOffThreshold c mod 2 = 0.

(** ** The earlier revision of the sketch

    The source file also holds the earlier revision of the sketch, with
    the relay thresholds as fixed constants and the drawing code not yet
    factored.  Its procedures are embedded under the same names in
    [Rev1]; its [enum Mode] is [DisplayMode].  [printBlinkingError], which
    nothing calls, is left out. *)

Module Rev1.

Definition HUMIDIFIER_ON_LOWER_THRESHOLD : Z := 80.
Definition HUMIDIFIER_OFF_UPPER_THRESHOLD : Z := 95.

Definition showTemperature (temperature : Z) : list Effect :=
  if temperature <? 10 then
    [ display_write 8 0 0;  (* Clear higher digit *)
      display_printDigit temperature DISPLAY_NCHIP 6 ]
  else if temperature >? 99 then
    [ display_printDigit 99 DISPLAY_NCHIP 6 ]
  else
    [ display_printDigit temperature DISPLAY_NCHIP 6 ].

Definition showHumidity (humidity : Z) : list Effect :=
  if humidity <? 10 then
    [ display_write 4 0 0;  (* Clear higher digit *)
      display_printDigit humidity DISPLAY_NCHIP 2 ]
  else if humidity >? 99 then
    [ display_printDigit 99 DISPLAY_NCHIP 2 ]
  else
    [ display_printDigit humidity DISPLAY_NCHIP 2 ].

(** Prints the status of the given bool to the right side, either _OFF
    or __ON. *)
Definition printBooleanStatus (status : bool) : list Effect :=
  if status then
    [ display_write 4 (B "00000000") 0;
      display_write 3 (B "01111110") 0;  (* O *)
      display_write 2 (B "00010101") 0;  (* n *)
      display_write 1 (B "00000000") 0 ]
  else
    [ display_write 4 (B "00000000") 0;
      display_write 3 (B "01111110") 0;  (* O *)
      display_write 2 (B "01000111") 0;  (* F *)
      display_write 1 (B "01000111") 0 ] (* F *).

Definition printCelsiusAndRelHumiditySigns : list Effect :=
  [ display_write 6 (B "01100011") 0;
    display_write 5 (B "01001110") 0;  (* C *)
    display_write 2 (B "00000101") 0;  (* r *)
    display_write 1 (B "00110111") 0 ] (* H *).

Definition printShowingMaximumSigns : list Effect :=
  [ display_write 6 (B "01000000") 0;
    display_write 5 (B "01000000") 0;
    display_write 2 (B "01000000") 0;
    display_write 1 (B "01000000") 0 ].

Definition printShowingMinimumSigns : list Effect :=
  [ display_write 6 (B "00001000") 0;
    display_write 5 (B "00001000") 0;
    display_write 2 (B "00001000") 0;
    display_write 1 (B "00001000") 0 ].

Definition printTempAndHumidity
    (w : World) (data : DisplayData) (signsFunction : option (list Effect))
  : list Effect :=
  let blinkStatus :=
    500 <? to_ulong (millis w - modeSelectedTime w) mod 1000 in
  (if blinkStatus || (match signsFunction with None => true | _ => false end)
   then printCelsiusAndRelHumiditySigns
   else match signsFunction with
        | Some signs => signs
        | None => []
        end)
  ++ showTemperature (temperature data)
  ++ showHumidity (humidity data).

Definition updateDisplayData (w : World) : list Effect :=
  match currentMode w with
  | live => printTempAndHumidity w (liveData w) None
  | min => printTempAndHumidity w (minData w) (Some printShowingMinimumSigns)
  | max => printTempAndHumidity w (maxData w) (Some printShowingMaximumSigns)
  | humidifierEnabled =>
      [ display_write 8 (B "00110111") 0;  (* H *)
        display_write 7 (B "00111110") 0;  (* U *)
        display_write 6 (B "01000111") 0;  (* F *)
        display_write 5 (B "00000110") 0 ] (* I *)
      ++ printBooleanStatus (Cfg.humidifierEnabled (persistentConfiguration w))
  | humidifierLowerOnThreshold =>
      let blinkStatus :=
        500 <? to_ulong (millis w - modeSelectedTime w) mod 1000 in
      [ display_write 8 (B "00110111") 0;  (* H *)
        display_write 7 (B "00111110") 0;  (* U *)
        display_write 6 (B "01000111") 0;  (* F *)
        display_write 5 (B "00000110") 0 ] (* I *)
      ++ (if blinkStatus then
            [ display_write 2 (B "00000101") 0;  (* r *)
              display_write 1 (B "00110111") 0 ] (* H *)
          else
            [ display_write 2 (B "00001000") 0;
              display_write 1 (B "00001000") 0 ])
      ++ showHumidity
           (Cfg.humidifierLowerOnThreshold (persistentConfiguration w))
  | humidifierUpperOffThreshold =>
      let blinkStatus :=
        500 <? to_ulong (millis w - modeSelectedTime w) mod 1000 in
      [ display_write 8 (B "00110111") 0;  (* H *)
        display_write 7 (B "00111110") 0;  (* U *)
        display_write 6 (B "01000111") 0;  (* F *)
        display_write 5 (B "00000110") 0 ] (* I *)
      ++ (if blinkStatus then
            [ display_write 2 (B "00000101") 0;  (* r *)
              display_write 1 (B "00110111") 0 ] (* H *)
          else
            [ display_write 2 (B "01000000") 0;
              display_write 1 (B "01000000") 0 ])
      ++ showHumidity
           (Cfg.humidifierUpperOffThreshold (persistentConfiguration w))
  | END => []
  end.

Definition updateRelayStatus (w : World) : World :=
  let w :=
    if negb (humidifierOn w)
       && (humidity (liveData w) <=? HUMIDIFIER_ON_LOWER_THRESHOLD)
    then set_humidifierOn true w
    else if humidifierOn w
            && (humidity (liveData w) >=? HUMIDIFIER_OFF_UPPER_THRESHOLD)
    then set_humidifierOn false w
    else w in
  perform
    (digitalWrite PIN_HUMIDIFIER_RELAY
       (negb (humidifierOn w
              && Cfg.humidifierEnabled (persistentConfiguration w))))
    w.

Definition RESET_ANIMATION_MAX : list Z := [6; 1; 2; 3; 4; 5].
Definition RESET_ANIMATION_MIN : list Z := [3; 4; 5; 6; 1; 2].

Definition printResetAnimationWithSegments (activeSegment : list Z)
  : list Effect :=
  flat_map
    (fun i =>
       let segment := nth (Z.to_nat i) activeSegment 0 in
       [ display_write 3 (to_byte (Z.shiftl 1 segment)) 0;
         display_write 4 (to_byte (Z.shiftl 1 segment)) 0;
         display_write 7 (to_byte (Z.shiftl 1 segment)) 0;
         display_write 8 (to_byte (Z.shiftl 1 segment)) 0;
         delay 50 ])
    [0; 1; 2; 3; 4; 5].

Definition printResetAnimation (w : World) : list Effect :=
  match currentMode w with
  | min => printResetAnimationWithSegments RESET_ANIMATION_MIN
  | max => printResetAnimationWithSegments RESET_ANIMATION_MAX
  | _ => []
  end.

Definition onActionButton (w : World) : World :=
  let w :=
    match currentMode w with
    | live =>
        let w :=
          if brightness w =? 0 then set_brightness 8 w
          else set_brightness 0 w in
        perform (display_setBright (brightness w)) w
    | max =>
        let w := set_maxData (liveData w) w in
        let w := draw updateDisplayData w in
        draw printResetAnimation w
    | min =>
        let w := set_minData (liveData w) w in
        let w := draw updateDisplayData w in
        draw printResetAnimation w
    | humidifierEnabled =>
        let w :=
          set_persistentConfiguration
            (Cfg.set_enabled
               (negb (Cfg.humidifierEnabled (persistentConfiguration w)))
               (persistentConfiguration w)) w in
        perform (EEPROM_put 0 (persistentConfiguration w)) w
    | humidifierLowerOnThreshold =>
        let w :=
          set_persistentConfiguration
            (Cfg.set_lower
               (to_byte (Cfg.humidifierLowerOnThreshold (persistentConfiguration w)
                         + 2))
               (persistentConfiguration w)) w in
        let w :=
          if Cfg.humidifierLowerOnThreshold (persistentConfiguration w)
             >=? Cfg.humidifierUpperOffThreshold (persistentConfiguration w)
          then set_persistentConfiguration
                 (Cfg.set_lower 60 (persistentConfiguration w)) w
          else w in
        perform (EEPROM_put 0 (persistentConfiguration w)) w
    | humidifierUpperOffThreshold =>
        let w :=
          set_persistentConfiguration
            (Cfg.set_upper
               (to_byte (Cfg.humidifierUpperOffThreshold (persistentConfiguration w)
                         + 2))
               (persistentConfiguration w)) w in
        let w :=
          if Cfg.humidifierUpperOffThreshold (persistentConfiguration w) >? 98
          then set_persistentConfiguration
                 (Cfg.set_upper
                    (to_byte (Cfg.humidifierLowerOnThreshold (persistentConfiguration w)
                              + 2))
                    (persistentConfiguration w)) w
          else w in
        perform (EEPROM_put 0 (persistentConfiguration w)) w
    | END => w
    end in
  draw updateDisplayData w.

Definition onNextModeButton (w : World) : World :=
  let w :=
    set_currentMode
      (DisplayMode_of_Z
         ((DisplayMode_to_Z (currentMode w) + 1) mod DisplayMode_to_Z END)) w in
  let w := set_modeSelectedTime (to_long (millis w)) w in
  draw updateDisplayData w.

Definition loop (i : Inputs) (w : World) : World :=
  let w := set_clock (to_ulong (clock w + elapsed i)) w in
  let w := perform (delay 2) w in
  let now := millis w in
  let w := if actionButtonFires i then onActionButton w else w in
  let w := if nextModeButtonFires i then onNextModeButton w else w in
  let w :=
    if now >? nextSensorSampling w then
      let w :=
        set_nextSensorSampling (to_ulong (now + minimumSamplingPeriod i)) w in
      let w := updateSensorData (reading i) w in
      updateRelayStatus w
    else w in
  draw updateDisplayData w.

End Rev1.

(** ** Notions used by the further properties *)

(** The arguments of the [delay] calls of a sequence, in order. *)
Fixpoint delays (calls : list Effect) : list Z :=
  match calls with
  | [] => []
  | delay ms :: rest => ms :: delays rest
  | _ :: rest => delays rest
  end.

(** The millisecond clock after the [delay]s of a sequence of calls. *)
Definition clockAfter (calls : list Effect) (c : Z) : Z :=
  fold_left (fun c ms => to_ulong (c + ms)) (delays calls) c.

(** The byte most recently written to each of the eight digit registers,
    register 8 (leftmost) first. *)
Definition frame (calls : list Effect) : list (option Z) :=
  map (fun p => lastWrite p calls) [8; 7; 6; 5; 4; 3; 2; 1].

(** The active configuration is the stored one and carries the expected
    magic number. *)
Definition stored_ok (w : World) : Prop :=
  eeprom w = persistentConfiguration w
  /\ Cfg.magic_mismatch (persistentConfiguration w) = false.

(** [n] presses of a button in a row. *)
Definition presses (b : Button) (n : nat) (w : World) : World :=
  Nat.iter n (fun w => press w b) w.

(** The whole effect of a sequence of library calls on the state. *)
Definition board_after (calls : list Effect) (w : World) : World :=
  mkWorld (persistentConfiguration w) (humidifierOn w) (currentMode w)
    (modeSelectedTime w) (liveData w) (maxData w) (minData w) (brightness w)
    (hasInitializedMinMax w) (nextSensorSampling w)
    (last (eepromWrites calls) (eeprom w))
    (last (relayWrites calls) (relayPin w))
    (clockAfter calls (clock w))
    (log w ++ calls).

(** The bytes written with [display.write] to one digit register, in the
    order of the calls. *)
Fixpoint writesTo (address : Z) (calls : list Effect) : list Z :=
  match calls with
  | [] => []
  | display_write a data _ :: rest =>
      if a =? address then data :: writesTo address rest
      else writesTo address rest
  | _ :: rest => writesTo address rest
  end.

(** One frame of the reset animation, for a given segment byte. *)
Definition animationFrame (data : Z) : list Effect :=
  [ display_write 3 data 0;
    display_write 4 data 0;
    display_write 7 data 0;
    display_write 8 data 0;
    delay 50 ].

(** The library calls recorded so far end with a drawing of the screen
    of the state itself. *)
Definition ends_with_redraw (w : World) : Prop :=
  exists before, log w = before ++ updateDisplay w.

(** * Properties *)

(** ** What [perform] touches

    Library calls change the board only: the sketch's variables are left
    alone, the log grows at its end, the relay pin follows the
    [digitalWrite]s and the EEPROM cell the [EEPROM.put]s. *)

Section Frames.

Variable e : Effect.
Variable w : World.

Lemma perform_log : log (perform e w) = log w ++ [e].
Proof. destruct e; cbn; try reflexivity. destruct (_ =? _); reflexivity. Qed.

Lemma perform_persistentConfiguration :
  persistentConfiguration (perform e w) = persistentConfiguration w.
Proof. destruct e; cbn; try reflexivity. destruct (_ =? _); reflexivity. Qed.

Lemma perform_humidifierOn : humidifierOn (perform e w) = humidifierOn w.
Proof. destruct e; cbn; try reflexivity. destruct (_ =? _); reflexivity. Qed.

Lemma perform_currentMode : currentMode (perform e w) = currentMode w.
Proof. destruct e; cbn; try reflexivity. destruct (_ =? _); reflexivity. Qed.

Lemma perform_modeSelectedTime :
  modeSelectedTime (perform e w) = modeSelectedTime w.
Proof. destruct e; cbn; try reflexivity. destruct (_ =? _); reflexivity. Qed.

Lemma perform_liveData : liveData (perform e w) = liveData w.
Proof. destruct e; cbn; try reflexivity. destruct (_ =? _); reflexivity. Qed.

Lemma perform_minData : minData (perform e w) = minData w.
Proof. destruct e; cbn; try reflexivity. destruct (_ =? _); reflexivity. Qed.

Lemma perform_maxData : maxData (perform e w) = maxData w.
Proof. destruct e; cbn; try reflexivity. destruct (_ =? _); reflexivity. Qed.

Lemma perform_nextSensorSampling :
  nextSensorSampling (perform e w) = nextSensorSampling w.
Proof. destruct e; cbn; try reflexivity. destruct (_ =? _); reflexivity. Qed.

Lemma perform_relayPin :
  relayPin (perform e w) = last (relayWrites [e]) (relayPin w).
Proof. destruct e; cbn; try reflexivity. destruct (_ =? _); reflexivity. Qed.

Lemma perform_eeprom :
  eeprom (perform e w) = last (eepromWrites [e]) (eeprom w).
Proof. destruct e; cbn; try reflexivity. destruct (_ =? _); reflexivity. Qed.

End Frames.

Lemma relayWrites_app (a b : list Effect) :
  relayWrites (a ++ b) = relayWrites a ++ relayWrites b.
Proof.
  induction a as [|x a IH]; [reflexivity|].
  destruct x; cbn; try exact IH.
  destruct (_ =? _); cbn; [f_equal|]; exact IH.
Qed.

Lemma eepromWrites_app (a b : list Effect) :
  eepromWrites (a ++ b) = eepromWrites a ++ eepromWrites b.
Proof.
  induction a as [|x a IH]; [reflexivity|].
  destruct x; cbn; try exact IH. f_equal; exact IH.
Qed.

Lemma last_nonempty {A} (l : list A) (x d d' : A) :
  last (x :: l) d = last (x :: l) d'.
Proof.
  revert x; induction l as [|y l IH]; intros x; [reflexivity|].
  change (last (y :: l) d = last (y :: l) d'). apply IH.
Qed.

Lemma last_app_default {A} (a b : list A) (d : A) :
  last (a ++ b) d = last b (last a d).
Proof.
  revert d; induction a as [|x a IH]; intros d; [reflexivity|].
  destruct a as [|y a].
  - destruct b as [|z b]; [reflexivity|].
    change (last (z :: b) d = last (z :: b) x). apply last_nonempty.
  - change (last ((y :: a) ++ b) d = last b (last (y :: a) d)). apply IH.
Qed.

Section FramesAll.

Variable es : list Effect.

Lemma perform_all_log w : log (perform_all es w) = log w ++ es.
Proof.
  revert w; induction es as [|x l IH]; intros w; cbn.
  - now rewrite app_nil_r.
  - rewrite IH, perform_log, <- app_assoc. reflexivity.
Qed.

Lemma perform_all_persistentConfiguration w :
  persistentConfiguration (perform_all es w) = persistentConfiguration w.
Proof.
  revert w; induction es as [|x l IH]; intros w; cbn; [reflexivity|].
  now rewrite IH, perform_persistentConfiguration.
Qed.

Lemma perform_all_humidifierOn w :
  humidifierOn (perform_all es w) = humidifierOn w.
Proof.
  revert w; induction es as [|x l IH]; intros w; cbn; [reflexivity|].
  now rewrite IH, perform_humidifierOn.
Qed.

Lemma perform_all_currentMode w :
  currentMode (perform_all es w) = currentMode w.
Proof.
  revert w; induction es as [|x l IH]; intros w; cbn; [reflexivity|].
  now rewrite IH, perform_currentMode.
Qed.

Lemma perform_all_modeSelectedTime w :
  modeSelectedTime (perform_all es w) = modeSelectedTime w.
Proof.
  revert w; induction es as [|x l IH]; intros w; cbn; [reflexivity|].
  now rewrite IH, perform_modeSelectedTime.
Qed.

Lemma perform_all_liveData w : liveData (perform_all es w) = liveData w.
Proof.
  revert w; induction es as [|x l IH]; intros w; cbn; [reflexivity|].
  now rewrite IH, perform_liveData.
Qed.

Lemma perform_all_minData w : minData (perform_all es w) = minData w.
Proof.
  revert w; induction es as [|x l IH]; intros w; cbn; [reflexivity|].
  now rewrite IH, perform_minData.
Qed.

Lemma perform_all_maxData w : maxData (perform_all es w) = maxData w.
Proof.
  revert w; induction es as [|x l IH]; intros w; cbn; [reflexivity|].
  now rewrite IH, perform_maxData.
Qed.

Lemma perform_all_nextSensorSampling w :
  nextSensorSampling (perform_all es w) = nextSensorSampling w.
Proof.
  revert w; induction es as [|x l IH]; intros w; cbn; [reflexivity|].
  now rewrite IH, perform_nextSensorSampling.
Qed.

Lemma perform_all_relayPin w :
  relayPin (perform_all es w) = last (relayWrites es) (relayPin w).
Proof.
  revert w; induction es as [|x l IH]; intros w; cbn [perform_all fold_left].
  - reflexivity.
  - change (fold_left (fun w e => perform e w) l (perform x w))
      with (perform_all l (perform x w)).
    rewrite IH, perform_relayPin.
    change (x :: l) with ([x] ++ l).
    now rewrite relayWrites_app, last_app_default.
Qed.

Lemma perform_all_eeprom w :
  eeprom (perform_all es w) = last (eepromWrites es) (eeprom w).
Proof.
  revert w; induction es as [|x l IH]; intros w; cbn [perform_all fold_left].
  - reflexivity.
  - change (fold_left (fun w e => perform e w) l (perform x w))
      with (perform_all l (perform x w)).
    rewrite IH, perform_eeprom.
    change (x :: l) with ([x] ++ l).
    now rewrite eepromWrites_app, last_app_default.
Qed.

End FramesAll.

Ltac split_conditions :=
  repeat match goal with
         | |- context [if ?c then _ else _] => destruct c
         end.

(** ** Sensor sample tracker *)

(** C5. Whatever was seen before, and also on the very first reading,
    every call of [updateSensorData] leaves the live temperature between
    the recorded minimum and maximum, and likewise the live humidity. *)
Theorem updateSensorData_extrema (w : World)
    (stored : Cfg.PersistentConfiguration) (readings : list DisplayData)
    (r : DisplayData) :
  extrema_ok (updateSensorData r w)
  /\ extrema_ok (samples (readings ++ [r]) (boot stored)).
Proof.
  assert (step : forall w0, extrema_ok (updateSensorData r w0)).
  { intros [cfg on mode mst [lt lh] [xt xh] [nt nh] br init nxt ee pin clk lg].
    destruct r as [t h]. unfold extrema_ok, updateSensorData.
    destruct init; cbn;
      repeat match goal with
             | |- context [?a <? ?b] =>
                 is_var a; is_var b; destruct (Z.ltb_spec a b); cbn
             | |- context [?a >? ?b] =>
                 is_var a; is_var b;
                 rewrite (Z.gtb_ltb a b); destruct (Z.ltb_spec b a); cbn
             end; lia. }
  split; [apply step|].
  unfold samples. rewrite fold_left_app. apply step.
Qed.

(** The first reading initialises both extrema to itself. *)
Lemma updateSensorData_first (w : World) (r : DisplayData) :
  hasInitializedMinMax w = false ->
  let w' := updateSensorData r w in
  liveData w' = r /\ minData w' = r /\ maxData w' = r.
Proof.
  destruct w as [cfg on mode mst lv mx mn br init nxt ee pin clk lg].
  destruct r as [t h]. cbn. intros ->. unfold updateSensorData. cbn.
  repeat (rewrite ?Z.gtb_ltb, ?Z.ltb_irrefl; cbn). auto.
Qed.

(** ** Relay controller *)

(** C4. [updateRelayStatus] is a two-threshold hysteresis on the relay
    flag: off and at or below the lower threshold turns it on, on and at
    or above the upper threshold turns it off, and strictly between the
    thresholds (more generally: on and below the upper one, or off and
    above the lower one) the flag is kept.  With lower 80 and upper 95
    and the relay off, the readings 85, 80, 79 turn it on at 80 and it
    stays on until the reading 95. *)
Theorem updateRelayStatus_hysteresis (w : World) :
  let h := humidity (liveData w) in
  let lower := Cfg.humidifierLowerOnThreshold (persistentConfiguration w) in
  let upper := Cfg.humidifierUpperOffThreshold (persistentConfiguration w) in
  (humidifierOn w = false -> h <= lower ->
   humidifierOn (updateRelayStatus w) = true)
  /\ (humidifierOn w = true -> upper <= h ->
      humidifierOn (updateRelayStatus w) = false)
  /\ (lower < h < upper ->
      humidifierOn (updateRelayStatus w) = humidifierOn w)
  /\ (humidifierOn w = true -> h < upper ->
      humidifierOn (updateRelayStatus w) = true)
  /\ (humidifierOn w = false -> lower < h ->
      humidifierOn (updateRelayStatus w) = false)
  /\ relayTrajectory (map (mkDisplayData 21) [85; 80; 79; 90; 94; 95; 94])
       (editing live 80 95)
     = [false; true; true; true; true; false; false].
Proof.
  cbv zeta.
  assert (example :
    relayTrajectory (map (mkDisplayData 21) [85; 80; 79; 90; 94; 95; 94])
      (editing live 80 95)
    = [false; true; true; true; true; false; false])
    by (vm_compute; reflexivity).
  revert example.
  generalize (relayTrajectory
                (map (mkDisplayData 21) [85; 80; 79; 90; 94; 95; 94])
                (editing live 80 95)).
  intros trajectory example.
  unfold updateRelayStatus. rewrite perform_humidifierOn.
  rewrite !Z.geb_leb.
  destruct (humidifierOn w) eqn:Hon; cbn [negb andb];
    destruct (Z.leb_spec (humidity (liveData w))
                (Cfg.humidifierLowerOnThreshold (persistentConfiguration w)));
    destruct (Z.leb_spec
                (Cfg.humidifierUpperOffThreshold (persistentConfiguration w))
                (humidity (liveData w)));
    cbn [set_humidifierOn humidifierOn];
    rewrite ?Hon;
    repeat split; intros; try reflexivity; try discriminate;
    try assumption; lia.
Qed.

Lemma updateRelayStatus_hysteresis_witness :
  humidifierOn
    (updateRelayStatus
       (set_liveData (mkDisplayData 21 80) (editing live 80 95))) = true.
Proof.
  apply (proj1 (updateRelayStatus_hysteresis
                  (set_liveData (mkDisplayData 21 80) (editing live 80 95)))).
  - reflexivity.
  - vm_compute. discriminate.
Defined.

(** The pin is driven low exactly when the relay flag is set and the
    humidifier is enabled. *)
Lemma updateRelayStatus_pin (w : World) :
  let w' := updateRelayStatus w in
  relayPin w'
  = negb (humidifierOn w'
          && Cfg.humidifierEnabled (persistentConfiguration w')).
Proof.
  cbv zeta. unfold updateRelayStatus.
  rewrite perform_relayPin, perform_humidifierOn,
    perform_persistentConfiguration.
  reflexivity.
Qed.

(** ** Blink phase *)

Lemma to_ulong_minus_to_long (t anchor : Z) :
  0 <= anchor <= t -> t < 2 ^ 32 ->
  to_ulong (t - to_long anchor) = t - anchor.
Proof.
  intros Ha Ht. unfold to_ulong, to_long.
  change (2 ^ 32) with 4294967296 in *. change (2 ^ 31) with 2147483648.
  destruct (Z.ltb_spec anchor 2147483648).
  - rewrite (Z.mod_small (anchor + 2147483648)) by lia.
    rewrite Z.mod_small by lia. lia.
  - replace (anchor + 2147483648)
      with (anchor - 2147483648 + 1 * 4294967296) by lia.
    rewrite Z.mod_add by lia.
    rewrite (Z.mod_small (anchor - 2147483648)) by lia.
    replace (t - (anchor - 2147483648 - 2147483648))
      with (t - anchor + 1 * 4294967296) by lia.
    rewrite Z.mod_add by lia. apply Z.mod_small. lia.
Qed.

(** C3 (amended). When the mode was selected at [anchor] and at most
    2^32 - 1 ms have passed on the 32-bit clock, the blink status is false
    while the position in the 1000 ms cycle is in [0, 500] and true while
    it is in (500, 1000). *)
Theorem getBlinkStatus_phase (w : World) (anchor : Z) :
  0 <= anchor <= millis w -> millis w < 2 ^ 32 ->
  modeSelectedTime w = to_long anchor ->
  let phase := (millis w - anchor) mod 1000 in
  (0 <= phase <= 500 -> getBlinkStatus w = false)
  /\ (500 < phase < 1000 -> getBlinkStatus w = true).
Proof.
  intros Ha Ht Hm phase. unfold getBlinkStatus.
  rewrite Hm, to_ulong_minus_to_long by assumption.
  fold phase. split; intros Hp.
  - apply Z.ltb_ge. lia.
  - apply Z.ltb_lt. lia.
Qed.

Lemma getBlinkStatus_phase_witness :
  getBlinkStatus (set_clock 2500 (set_modeSelectedTime (to_long 1000)
                                    (boot Cfg.default))) = false.
Proof.
  apply (getBlinkStatus_phase
           (set_clock 2500 (set_modeSelectedTime (to_long 1000)
                              (boot Cfg.default))) 1000).
  - vm_compute. split; discriminate.
  - reflexivity.
  - reflexivity.
  - vm_compute. split; discriminate.
Defined.

(** C3, as stated, fails on the boundary: 500 ms after the mode was
    selected the sketch still reports the first content, where the
    specification's phase is already true. *)
Lemma getBlinkStatus_at_500 :
  let w := set_clock 500 (boot Cfg.default) in
  millis w = 500 /\ modeSelectedTime w = 0
  /\ getBlinkStatus w = false
  /\ spec_blinkPhase (millis w) (modeSelectedTime w) = true
  /\ getBlinkStatus w <> spec_blinkPhase (millis w) (modeSelectedTime w).
Proof. vm_compute. repeat split; discriminate. Qed.

(** Selecting the next mode anchors the cycle at the current time. *)
Lemma onNextModeButton_anchor (w : World) :
  modeSelectedTime (onNextModeButton w) = to_long (millis w).
Proof.
  unfold onNextModeButton, draw. cbv zeta.
  rewrite perform_all_modeSelectedTime. reflexivity.
Qed.

(** ** Segment renderer *)

(** C2 (amended). The two-digit renderer hands [printDigit] the value
    capped at 99 and otherwise unchanged, negative values included; for a
    value below 10 it writes the empty segment byte, which lights no
    segment, to the tens position [digit + 2], and for any other value it
    writes nothing there. *)
Theorem printTwoDigitValue_rendering (value digit : Z) :
  printedNumbers (printTwoDigitValue value digit)
  = [(Z.min value 99, digit)]
  /\ tensWrite value digit = (if value <? 10 then Some 0 else None)
  /\ litSegments 0 = [].
Proof.
  unfold tensWrite, printTwoDigitValue.
  destruct (Z.ltb_spec value 10) as [Hlt | Hge].
  - cbn. rewrite Z.eqb_refl, Z.min_l by lia. auto.
  - rewrite Z.gtb_ltb. destruct (Z.ltb_spec 99 value) as [Hgt | Hle]; cbn.
    + rewrite Z.min_r by lia. auto.
    + rewrite Z.min_l by lia. auto.
Qed.

(** C2, as stated, fails: the value 7 leaves the tens position blank, not
    showing the six segments of "0", and the value -3 reaches [printDigit]
    unclamped. *)
Lemma printTwoDigitValue_not_as_specified :
  printTwoDigitValue 7 2
  = [display_write 4 0 0; display_printDigit 7 1 2]
  /\ printTwoDigitValue (-3) 2
     = [display_write 4 0 0; display_printDigit (-3) 1 2]
  /\ ~ spec_twoDigitRendering 7 2
  /\ ~ spec_twoDigitRendering (-3) 2.
Proof.
  split; [reflexivity|]. split; [reflexivity|]. split.
  - intros [_ tens]. destruct tens as [data [written segments]]; [lia|].
    vm_compute in written. injection written as <-.
    vm_compute in segments. discriminate.
  - intros [number _]. vm_compute in number. discriminate.
Qed.

(** C1 (amended). In the four blinking modes the sign positions show the
    marker of the mode while the blink status is false, that is during
    the first 501 ms of the cycle, and the unit signs while it is true.
    The values drawn afterwards do not write to these positions: the only
    other [display.write] goes to the tens position, and [printDigit] is
    started at digit 6 and digit 2. *)
Theorem updateDisplay_blinking_signs (w : World) :
  In (currentMode w) blinkingModes ->
  getBlinkStatus w = negb (cyclePosition w <=? 500)
  /\ shownSigns w
     = (if cyclePosition w <=? 500 then markerSigns (currentMode w)
        else normalSigns (currentMode w))
  /\ map snd (printedNumbers (updateDisplay w))
     = valueStartDigits (currentMode w)
  /\ markerSigns (currentMode w) <> normalSigns (currentMode w).
Proof.
  intros Hmode.
  assert (Hblink : getBlinkStatus w = negb (cyclePosition w <=? 500)).
  { unfold getBlinkStatus, cyclePosition. rewrite Z.ltb_antisym. reflexivity. }
  split; [exact Hblink|].
  unfold shownSigns, updateDisplay, printTempAndHumidityOverview,
    printHumidifierConfigValueWithBlinking.
  rewrite Hblink.
  unfold blinkingModes in Hmode. cbn [In] in Hmode.
  destruct Hmode as [<- | [<- | [<- | [<- | []]]]];
    destruct (cyclePosition w <=? 500); cbn [negb orb];
    (split; [| split; [| vm_compute; discriminate]]);
    unfold printTwoDigitValue; split_conditions; reflexivity.
Qed.

Lemma updateDisplay_blinking_signs_witness :
  shownSigns (set_clock 700 (editing max 80 96))
  = [Some (B "01100011"); Some (B "01001110");
     Some (B "00000101"); Some (B "00110111")].
Proof.
  apply (updateDisplay_blinking_signs (set_clock 700 (editing max 80 96))).
  cbn. auto.
Defined.

(** C1, as stated, fails: right after the minimum mode is selected (first
    half of the cycle) the sign positions carry the bottom bars, not
    "°C" and "rH"; past the middle of the cycle they carry "°C" and "rH",
    not the marker. *)
Lemma updateDisplay_first_half_shows_marker :
  let w := editing min 80 96 in
  cyclePosition w = 0
  /\ shownSigns w = repeat (Some (B "00001000")) 4
  /\ shownSigns w <> spec_shownSigns w
  /\ shownSigns (set_clock 700 w) <> spec_shownSigns (set_clock 700 w).
Proof. vm_compute. repeat split; discriminate. Qed.

(** ** Drawing touches neither the relay pin nor the EEPROM *)

Lemma printTwoDigitValue_board (value digit : Z) :
  relayWrites (printTwoDigitValue value digit) = []
  /\ eepromWrites (printTwoDigitValue value digit) = [].
Proof. unfold printTwoDigitValue. split_conditions; split; reflexivity. Qed.

Lemma updateDisplay_board (w : World) :
  relayWrites (updateDisplay w) = [] /\ eepromWrites (updateDisplay w) = [].
Proof.
  unfold updateDisplay, printTempAndHumidityOverview,
    printHumidifierConfigValueWithBlinking, printBooleanConfigurationStatus.
  destruct (currentMode w); cbn [orb];
    rewrite ?orb_true_r, ?orb_false_r;
    destruct (getBlinkStatus w);
    rewrite ?relayWrites_app, ?eepromWrites_app,
      ?(proj1 (printTwoDigitValue_board _ _)),
      ?(proj2 (printTwoDigitValue_board _ _));
    split_conditions; split; reflexivity.
Qed.

Lemma presentResetAnimation_board (w : World) :
  relayWrites (presentResetAnimation w) = []
  /\ eepromWrites (presentResetAnimation w) = [].
Proof.
  unfold presentResetAnimation. destruct (currentMode w); split; reflexivity.
Qed.

Section Draw.

Variable f : World -> list Effect.
Hypothesis f_board : forall w, relayWrites (f w) = [] /\ eepromWrites (f w) = [].

Lemma draw_persistentConfiguration w :
  persistentConfiguration (draw f w) = persistentConfiguration w.
Proof. apply perform_all_persistentConfiguration. Qed.

Lemma draw_humidifierOn w : humidifierOn (draw f w) = humidifierOn w.
Proof. apply perform_all_humidifierOn. Qed.

Lemma draw_relayPin w : relayPin (draw f w) = relayPin w.
Proof.
  unfold draw. rewrite perform_all_relayPin, (proj1 (f_board w)). reflexivity.
Qed.

Lemma draw_eeprom w : eeprom (draw f w) = eeprom w.
Proof.
  unfold draw. rewrite perform_all_eeprom, (proj2 (f_board w)). reflexivity.
Qed.

Lemma draw_log w :
  log (draw f w) = log w ++ f w /\ relayWrites (f w) = [].
Proof.
  unfold draw. rewrite perform_all_log. split; [reflexivity | apply f_board].
Qed.

End Draw.

(** ** The action button *)

(** The configuration after the action button, mode by mode. *)
Lemma onActionButton_persistentConfiguration (w : World) :
  let c := persistentConfiguration w in
  persistentConfiguration (onActionButton w)
  = match currentMode w with
    | humidifierEnabled => Cfg.set_enabled (negb (Cfg.humidifierEnabled c)) c
    | humidifierLowerOnThreshold =>
        let raised := to_byte (Cfg.humidifierLowerOnThreshold c + 2) in
        Cfg.set_lower
          (if raised >=? Cfg.humidifierUpperOffThreshold c then 60 else raised)
          c
    | humidifierUpperOffThreshold =>
        let raised := to_byte (Cfg.humidifierUpperOffThreshold c + 2) in
        Cfg.set_upper
          (if raised >? 98
           then to_byte (Cfg.humidifierLowerOnThreshold c + 2) else raised)
          c
    | _ => c
    end.
Proof.
  cbv zeta. unfold onActionButton. cbv zeta.
  rewrite draw_persistentConfiguration.
  destruct (currentMode w).
  - rewrite perform_persistentConfiguration. split_conditions; reflexivity.
  - rewrite !draw_persistentConfiguration. reflexivity.
  - rewrite !draw_persistentConfiguration. reflexivity.
  - rewrite perform_persistentConfiguration. reflexivity.
  - rewrite perform_persistentConfiguration.
    destruct (persistentConfiguration w) as [magic lower upper enabled].
    cbn. change HUMIDIFIER_THRESHOLD_MININUM with 60.
    change HUMIDIFIER_THRESHOLD_STEPS with 2.
    split_conditions; reflexivity.
  - rewrite perform_persistentConfiguration.
    destruct (persistentConfiguration w) as [magic lower upper enabled].
    cbn. change HUMIDIFIER_THRESHOLD_STEPS with 2.
    split_conditions; reflexivity.
  - reflexivity.
Qed.

(** In the three configuration modes the record is written to the EEPROM
    after the change; in the other modes the EEPROM is left alone. *)
Lemma onActionButton_eeprom (w : World) :
  eeprom (onActionButton w)
  = match currentMode w with
    | humidifierEnabled | humidifierLowerOnThreshold
    | humidifierUpperOffThreshold => persistentConfiguration (onActionButton w)
    | _ => eeprom w
    end.
Proof.
  unfold onActionButton. cbv zeta.
  rewrite draw_persistentConfiguration, (draw_eeprom _ updateDisplay_board).
  destruct (currentMode w).
  - rewrite perform_eeprom. split_conditions; reflexivity.
  - rewrite (draw_eeprom _ presentResetAnimation_board),
      (draw_eeprom _ updateDisplay_board). reflexivity.
  - rewrite (draw_eeprom _ presentResetAnimation_board),
      (draw_eeprom _ updateDisplay_board). reflexivity.
  - rewrite perform_eeprom, perform_persistentConfiguration. reflexivity.
  - rewrite perform_eeprom, perform_persistentConfiguration. reflexivity.
  - rewrite perform_eeprom, perform_persistentConfiguration. reflexivity.
  - reflexivity.
Qed.

(** ** Procedures that leave the relay alone *)

Lemma quiet_same (w w' : World) :
  relayPin w' = relayPin w -> humidifierOn w' = humidifierOn w ->
  nextSensorSampling w' = nextSensorSampling w ->
  log w' = log w -> quiet w w'.
Proof.
  intros Hp Ho Hn Hl. split; [exact Hp|]. split; [exact Ho|].
  split; [exact Hn|].
  exists []. rewrite app_nil_r. split; [exact Hl | reflexivity].
Qed.

Lemma quiet_trans (w1 w2 w3 : World) :
  quiet w1 w2 -> quiet w2 w3 -> quiet w1 w3.
Proof.
  intros [Hp [Ho [Hn [c [Hl Hc]]]]] [Hp' [Ho' [Hn' [c' [Hl' Hc']]]]].
  split; [congruence|]. split; [congruence|]. split; [congruence|].
  exists (c ++ c'). rewrite Hl', Hl, <- app_assoc, relayWrites_app, Hc, Hc'.
  split; reflexivity.
Qed.

Lemma quiet_if (c : bool) (w a b : World) :
  quiet w a -> quiet w b -> quiet w (if c then a else b).
Proof. destruct c; auto. Qed.

Lemma quiet_perform (e : Effect) (w : World) :
  relayWrites [e] = [] -> quiet w (perform e w).
Proof.
  intros He. split; [|split; [|split]].
  - rewrite perform_relayPin, He. reflexivity.
  - apply perform_humidifierOn.
  - apply perform_nextSensorSampling.
  - exists [e]. rewrite perform_log. split; [reflexivity | exact He].
Qed.

Lemma quiet_draw (f : World -> list Effect) (w : World) :
  (forall w, relayWrites (f w) = [] /\ eepromWrites (f w) = []) ->
  quiet w (draw f w).
Proof.
  intros Hf. split; [|split; [|split]].
  - apply draw_relayPin, Hf.
  - apply draw_humidifierOn.
  - apply perform_all_nextSensorSampling.
  - exists (f w). apply draw_log, Hf.
Qed.

Ltac quiet_steps :=
  lazymatch goal with
  | |- quiet _ (draw updateDisplay _) =>
      eapply quiet_trans; [| apply (quiet_draw _ _ updateDisplay_board)];
      quiet_steps
  | |- quiet _ (draw presentResetAnimation _) =>
      eapply quiet_trans;
      [| apply (quiet_draw _ _ presentResetAnimation_board)];
      quiet_steps
  | |- quiet _ (perform _ _) =>
      eapply quiet_trans; [| apply quiet_perform; reflexivity];
      quiet_steps
  | |- quiet _ (if _ then _ else _) => apply quiet_if; quiet_steps
  | |- quiet _ (set_persistentConfiguration _ (perform ?e ?x)) =>
      apply (quiet_trans _ (perform e x));
      [quiet_steps | apply quiet_same; reflexivity]
  | |- quiet _ _ => apply quiet_same; reflexivity
  end.

(** The action button never writes the relay pin. *)
Lemma onActionButton_quiet (w : World) : quiet w (onActionButton w).
Proof.
  unfold onActionButton. cbv zeta.
  destruct (currentMode w); quiet_steps.
Qed.

Lemma onNextModeButton_quiet (w : World) : quiet w (onNextModeButton w).
Proof. unfold onNextModeButton. cbv zeta. quiet_steps. Qed.

(** ** Editing the thresholds *)

(** C6. In the lower-threshold mode the action button adds the step 2
    to the lower threshold and, when the raised value reaches or exceeds
    the upper threshold, sets it to the floor 60 instead; the upper
    threshold is left alone and the record is stored.  From 98 with
    upper 100 the result is 60, and the resulting lower threshold is
    always below the upper one.  The thresholds range over what can be
    configured: a lower threshold that can take the step within the byte
    (at most 253) and an upper threshold above the floor 60; every pair
    of percentages with 60 <= lower < upper <= 100 is of that kind. *)
Theorem onActionButton_lower_threshold (w : World) :
  let lower := Cfg.humidifierLowerOnThreshold (persistentConfiguration w) in
  let upper := Cfg.humidifierUpperOffThreshold (persistentConfiguration w) in
  let w' := onActionButton w in
  currentMode w = humidifierLowerOnThreshold ->
  0 <= lower <= 253 ->
  HUMIDIFIER_THRESHOLD_MININUM < upper ->
  Cfg.humidifierLowerOnThreshold (persistentConfiguration w')
  = (if lower + HUMIDIFIER_THRESHOLD_STEPS >=? upper
     then HUMIDIFIER_THRESHOLD_MININUM
     else lower + HUMIDIFIER_THRESHOLD_STEPS)
  /\ Cfg.humidifierUpperOffThreshold (persistentConfiguration w') = upper
  /\ eeprom w' = persistentConfiguration w'
  /\ Cfg.humidifierLowerOnThreshold (persistentConfiguration w')
     < Cfg.humidifierUpperOffThreshold (persistentConfiguration w')
  /\ Cfg.humidifierLowerOnThreshold
       (persistentConfiguration
          (onActionButton (editing humidifierLowerOnThreshold 98 100)))
     = 60.
Proof.
  cbv zeta. change HUMIDIFIER_THRESHOLD_MININUM with 60.
  change HUMIDIFIER_THRESHOLD_STEPS with 2.
  intros Hmode Hlower Hupper.
  rewrite onActionButton_eeprom, onActionButton_persistentConfiguration, Hmode.
  cbv zeta. unfold to_byte. rewrite Z.mod_small by (change (2 ^ 8) with 256; lia).
  destruct (persistentConfiguration w) as [magic lower upper enabled].
  cbn in *. rewrite Z.geb_leb.
  destruct (Z.leb_spec upper (lower + 2));
    repeat split; try reflexivity; lia.
Qed.

Lemma onActionButton_lower_threshold_witness :
  let w' := onActionButton (editing humidifierLowerOnThreshold 94 96) in
  Cfg.humidifierLowerOnThreshold (persistentConfiguration w') = 60
  /\ Cfg.humidifierLowerOnThreshold (persistentConfiguration w')
     < Cfg.humidifierUpperOffThreshold (persistentConfiguration w').
Proof.
  cbv zeta.
  assert (Hmode : currentMode (editing humidifierLowerOnThreshold 94 96)
                  = humidifierLowerOnThreshold) by reflexivity.
  assert (Hlower :
    0 <= Cfg.humidifierLowerOnThreshold
           (persistentConfiguration (editing humidifierLowerOnThreshold 94 96))
      <= 253) by (vm_compute; split; discriminate).
  assert (Hupper :
    HUMIDIFIER_THRESHOLD_MININUM
    < Cfg.humidifierUpperOffThreshold
        (persistentConfiguration (editing humidifierLowerOnThreshold 94 96)))
    by (vm_compute; reflexivity).
  destruct (onActionButton_lower_threshold
              (editing humidifierLowerOnThreshold 94 96) Hmode Hlower Hupper)
    as (Hvalue & _ & _ & Hordered & _).
  split; [exact Hvalue | exact Hordered].
Defined.

(** C7. In the upper-threshold mode, for thresholds that can take the
    step without leaving the byte range (every percentage can), the
    action button sets the upper threshold to lower + 2 when the raised
    value exceeds 100 - 2 = 98 and to the raised value otherwise, leaves
    the lower threshold alone and stores the record; from 98 the result
    is lower + 2. *)
Theorem onActionButton_upper_threshold (w : World) :
  let lower := Cfg.humidifierLowerOnThreshold (persistentConfiguration w) in
  let upper := Cfg.humidifierUpperOffThreshold (persistentConfiguration w) in
  let w' := onActionButton w in
  currentMode w = humidifierUpperOffThreshold ->
  0 <= lower <= 253 -> 0 <= upper <= 253 ->
  Cfg.humidifierUpperOffThreshold (persistentConfiguration w')
  = (if upper + HUMIDIFIER_THRESHOLD_STEPS >? 100 - HUMIDIFIER_THRESHOLD_STEPS
     then lower + 2 else upper + 2)
  /\ Cfg.humidifierLowerOnThreshold (persistentConfiguration w') = lower
  /\ eeprom w' = persistentConfiguration w'
  /\ (upper = 98 ->
      Cfg.humidifierUpperOffThreshold (persistentConfiguration w')
      = lower + 2).
Proof.
  cbv zeta. intros Hmode Hlower Hupper.
  rewrite onActionButton_eeprom, onActionButton_persistentConfiguration, Hmode.
  cbv zeta. unfold to_byte.
  rewrite !Z.mod_small by (change (2 ^ 8) with 256; lia).
  destruct (persistentConfiguration w) as [magic lower upper enabled].
  cbn in *. change HUMIDIFIER_THRESHOLD_STEPS with 2. change (100 - 2) with 98.
  rewrite Z.gtb_ltb.
  destruct (Z.ltb_spec 98 (upper + 2));
    repeat split; try reflexivity; lia.
Qed.

Lemma onActionButton_upper_threshold_witness :
  Cfg.humidifierUpperOffThreshold
    (persistentConfiguration
       (onActionButton (editing humidifierUpperOffThreshold 80 98))) = 82.
Proof.
  apply (onActionButton_upper_threshold
           (editing humidifierUpperOffThreshold 80 98)).
  - reflexivity.
  - vm_compute. split; discriminate.
  - vm_compute. split; discriminate.
  - reflexivity.
Defined.

(** ** The thresholds stay ordered *)

Lemma thresholds_inv_ok (c : Cfg.PersistentConfiguration) :
  thresholds_inv c -> thresholds_ok c.
Proof. unfold thresholds_inv, thresholds_ok. lia. Qed.

Lemma onActionButton_thresholds_inv (w : World) :
  thresholds_inv (persistentConfiguration w) ->
  thresholds_inv (persistentConfiguration (onActionButton w)).
Proof.
  rewrite onActionButton_persistentConfiguration. cbv zeta.
  destruct (persistentConfiguration w) as [magic lower upper enabled].
  unfold thresholds_inv, to_byte. cbn. change (2 ^ 8) with 256.
  intros Hinv.
  destruct (currentMode w); cbn; try exact Hinv;
    destruct Hinv as (Hfloor & Hordered & Hceiling & Hlower & Hupper).
  - rewrite Z.mod_small by lia. rewrite Z.geb_leb.
    destruct (Z.leb_spec upper (lower + 2)); cbn;
      Z.div_mod_to_equations; lia.
  - rewrite !Z.mod_small by lia. rewrite Z.gtb_ltb.
    destruct (Z.ltb_spec 98 (upper + 2)); cbn;
      Z.div_mod_to_equations; lia.
Qed.

Lemma onNextModeButton_persistentConfiguration (w : World) :
  persistentConfiguration (onNextModeButton w) = persistentConfiguration w.
Proof.
  unfold onNextModeButton. cbv zeta.
  rewrite draw_persistentConfiguration. reflexivity.
Qed.

Ltac push_projection f :=
  repeat match goal with
         | |- context [f (if ?c then ?a else ?b)] =>
             replace (f (if c then a else b)) with (f b)
               by (destruct c; reflexivity)
         end.

Lemma updateSensorData_persistentConfiguration (r : DisplayData) (w : World) :
  persistentConfiguration (updateSensorData r w) = persistentConfiguration w.
Proof.
  unfold updateSensorData. cbv zeta.
  push_projection persistentConfiguration. reflexivity.
Qed.

Lemma updateRelayStatus_persistentConfiguration (w : World) :
  persistentConfiguration (updateRelayStatus w) = persistentConfiguration w.
Proof.
  unfold updateRelayStatus. cbv zeta.
  rewrite perform_persistentConfiguration.
  split_conditions; reflexivity.
Qed.

Lemma loop_thresholds_inv (i : Inputs) (w : World) :
  thresholds_inv (persistentConfiguration w) ->
  thresholds_inv (persistentConfiguration (loop i w)).
Proof.
  intros Hinv. unfold loop. cbv zeta.
  rewrite draw_persistentConfiguration.
  match goal with
  | |- context [perform (delay 2) ?x] => set (w1 := perform (delay 2) x)
  end.
  assert (H1 : thresholds_inv (persistentConfiguration w1)).
  { subst w1. rewrite perform_persistentConfiguration. exact Hinv. }
  clearbody w1.
  set (w2 := if actionButtonFires i then onActionButton w1 else w1).
  assert (H2 : thresholds_inv (persistentConfiguration w2)).
  { subst w2. destruct (actionButtonFires i);
      [apply onActionButton_thresholds_inv|]; exact H1. }
  clearbody w2.
  set (w3 := if nextModeButtonFires i then onNextModeButton w2 else w2).
  assert (H3 : thresholds_inv (persistentConfiguration w3)).
  { subst w3. destruct (nextModeButtonFires i);
      [rewrite onNextModeButton_persistentConfiguration|]; exact H2. }
  clearbody w3.
  split_conditions; [|exact H3].
  rewrite updateRelayStatus_persistentConfiguration,
    updateSensorData_persistentConfiguration.
  exact H3.
Qed.

(** C8. From the default configuration (lower 80, upper 96), whatever the
    buttons do, in any finite sequence of presses and in any finite run
    of the main loop, both thresholds stay within [60, 100] and the lower
    one stays below the upper one. *)
Theorem thresholds_stay_ordered (w : World) (buttons : list Button)
    (inputs : list Inputs) :
  Cfg.humidifierLowerOnThreshold (persistentConfiguration w) = 80 ->
  Cfg.humidifierUpperOffThreshold (persistentConfiguration w) = 96 ->
  thresholds_ok (persistentConfiguration (fold_left press buttons w))
  /\ thresholds_ok (persistentConfiguration (run inputs w)).
Proof.
  intros Hlower Hupper.
  assert (Hinv : thresholds_inv (persistentConfiguration w)).
  { unfold thresholds_inv. rewrite Hlower, Hupper. cbn. lia. }
  clear Hlower Hupper. split; apply thresholds_inv_ok.
  - revert w Hinv. induction buttons as [|b buttons IH]; intros w Hinv.
    + exact Hinv.
    + cbn [fold_left]. apply IH. destruct b; cbn [press].
      * apply onActionButton_thresholds_inv, Hinv.
      * rewrite onNextModeButton_persistentConfiguration. exact Hinv.
  - unfold run. revert w Hinv.
    induction inputs as [|i inputs IH]; intros w Hinv.
    + exact Hinv.
    + cbn [fold_left]. apply IH, loop_thresholds_inv, Hinv.
Qed.

Lemma thresholds_stay_ordered_witness :
  thresholds_ok
    (persistentConfiguration
       (fold_left press
          [NextModeButton; NextModeButton; NextModeButton; NextModeButton;
           ActionButton; ActionButton; NextModeButton; ActionButton;
           ActionButton; ActionButton]
          (boot (Cfg.mk 0 0 0 false)))).
Proof.
  refine (proj1 (thresholds_stay_ordered (boot (Cfg.mk 0 0 0 false)) _ [] _ _)).
  - reflexivity.
  - reflexivity.
Defined.

(** ** Configuration store *)

Lemma default_magic_matches : Cfg.magic_mismatch Cfg.default = false.
Proof. reflexivity. Qed.

(** C9. When the stored magic number differs from the expected one,
    [setup] overwrites the EEPROM with the default record (enabled, lower
    80, upper 96), reads it back as the active configuration and only
    reports it on the serial line; running [setup] again, or powering up
    again on the EEPROM it left, loads the same values and writes
    nothing. *)
Theorem setup_recovers_defaults (w : World) :
  Cfg.magic_mismatch (eeprom w) = true ->
  let w1 := setup w in
  eeprom w1 = Cfg.default
  /\ persistentConfiguration w1 = Cfg.default
  /\ Cfg.humidifierEnabled (persistentConfiguration w1) = true
  /\ Cfg.humidifierLowerOnThreshold (persistentConfiguration w1) = 80
  /\ Cfg.humidifierUpperOffThreshold (persistentConfiguration w1) = 96
  /\ log w1
     = log w ++ [Serial_begin 9600; EEPROM_put 0 Cfg.default;
                 Serial_println "Initialized EEPROM default config";
                 pinMode_OUTPUT PIN_HUMIDIFIER_RELAY;
                 display_on DISPLAY_NCHIP; sensor_setup PIN_SENSOR_DATA]
  /\ persistentConfiguration (setup w1) = persistentConfiguration w1
  /\ eeprom (setup w1) = eeprom w1
  /\ (exists calls,
        log (setup w1) = log w1 ++ calls /\ eepromWrites calls = [])
  /\ persistentConfiguration (boot (eeprom w1)) = persistentConfiguration w1
  /\ eeprom (boot (eeprom w1)) = eeprom w1.
Proof.
  intros Hmagic.
  destruct w as [cfg on mode mst lv mx mn br init nxt ee pin clk lg].
  cbn [eeprom] in Hmagic.
  assert (first :
    setup (mkWorld cfg on mode mst lv mx mn br init nxt ee pin clk lg)
    = mkWorld Cfg.default on mode mst lv mx mn br init nxt Cfg.default pin clk
        (lg ++ [Serial_begin 9600; EEPROM_put 0 Cfg.default;
                Serial_println "Initialized EEPROM default config";
                pinMode_OUTPUT PIN_HUMIDIFIER_RELAY;
                display_on DISPLAY_NCHIP; sensor_setup PIN_SENSOR_DATA])).
  { unfold setup. cbn [perform set_log set_persistentConfiguration
      persistentConfiguration eeprom log humidifierOn currentMode
      modeSelectedTime liveData maxData minData brightness
      hasInitializedMinMax nextSensorSampling relayPin clock].
    rewrite Hmagic.
    cbn [perform set_log set_persistentConfiguration set_eeprom
      persistentConfiguration eeprom log humidifierOn currentMode
      modeSelectedTime liveData maxData minData brightness
      hasInitializedMinMax nextSensorSampling relayPin clock].
    rewrite <- !app_assoc. reflexivity. }
  cbv zeta. rewrite first.
  repeat (split; [reflexivity|]).
  split; [|split]; try reflexivity.
  eexists. unfold setup.
  cbn [perform set_log set_persistentConfiguration set_eeprom
    persistentConfiguration eeprom log humidifierOn currentMode
    modeSelectedTime liveData maxData minData brightness
    hasInitializedMinMax nextSensorSampling relayPin clock].
  rewrite default_magic_matches.
  cbn [perform set_log set_persistentConfiguration set_eeprom
    persistentConfiguration eeprom log humidifierOn currentMode
    modeSelectedTime liveData maxData minData brightness
    hasInitializedMinMax nextSensorSampling relayPin clock].
  rewrite <- !app_assoc. split; reflexivity.
Qed.

Lemma setup_recovers_defaults_witness :
  persistentConfiguration (setup (power_up (Cfg.mk 0 255 255 false)))
  = Cfg.default.
Proof.
  apply (setup_recovers_defaults (power_up (Cfg.mk 0 255 255 false))).
  reflexivity.
Defined.

(** A stored record with the expected magic number is loaded as it is. *)
Lemma setup_loads_valid_record (w : World) :
  Cfg.magic_mismatch (eeprom w) = false ->
  persistentConfiguration (setup w) = eeprom w /\ eeprom (setup w) = eeprom w.
Proof.
  intros Hmagic.
  destruct w as [cfg on mode mst lv mx mn br init nxt ee pin clk lg].
  cbn [eeprom] in Hmagic. unfold setup.
  cbn [perform set_log set_persistentConfiguration
    persistentConfiguration eeprom log humidifierOn currentMode
    modeSelectedTime liveData maxData minData brightness
    hasInitializedMinMax nextSensorSampling relayPin clock].
  rewrite Hmagic. split; reflexivity.
Qed.

(** ** The relay pin is written on sampling ticks only *)

Lemma setup_quiet (w : World) : quiet w (setup w).
Proof. unfold setup. cbv zeta. quiet_steps. Qed.

Lemma loop_now (i : Inputs) (w : World) :
  millis (perform (delay 2) (set_clock (to_ulong (clock w + elapsed i)) w))
  = to_ulong (to_ulong (clock w + elapsed i) + 2).
Proof. destruct w; reflexivity. Qed.

Lemma loop_quiet (i : Inputs) (w : World) :
  samplingTick i w = false -> quiet w (loop i w).
Proof.
  intros Htick. unfold loop. cbv zeta. rewrite loop_now.
  set (w1 := perform (delay 2) (set_clock _ w)).
  assert (Q1 : quiet w w1) by (subst w1; quiet_steps).
  clearbody w1.
  set (w2 := if actionButtonFires i then onActionButton w1 else w1).
  assert (Q2 : quiet w w2).
  { apply (quiet_trans _ _ _ Q1). subst w2. apply quiet_if.
    - apply onActionButton_quiet.
    - apply quiet_same; reflexivity. }
  clearbody w2.
  set (w3 := if nextModeButtonFires i then onNextModeButton w2 else w2).
  assert (Q3 : quiet w w3).
  { apply (quiet_trans _ _ _ Q2). subst w3. apply quiet_if.
    - apply onNextModeButton_quiet.
    - apply quiet_same; reflexivity. }
  clearbody w3.
  replace (nextSensorSampling w3) with (nextSensorSampling w)
    by (symmetry; apply Q3).
  unfold samplingTick in Htick. rewrite Htick.
  apply (quiet_trans _ _ _ Q3), quiet_draw, updateDisplay_board.
Qed.

Lemma run_quiet (inputs : list Inputs) (w : World) :
  noSamplingTick inputs w = true -> quiet w (run inputs w).
Proof.
  unfold run. revert w. induction inputs as [|i inputs IH]; intros w Hno.
  - apply quiet_same; reflexivity.
  - cbn [noSamplingTick] in Hno. apply andb_prop in Hno as [Hi Hrest].
    apply negb_true_iff in Hi. cbn [fold_left].
    apply (quiet_trans _ (loop i w)); [apply loop_quiet, Hi | apply IH, Hrest].
Qed.

Lemma loop_sampling (i : Inputs) (w : World) :
  samplingTick i w = true ->
  relayPin (loop i w)
  = negb (humidifierOn (loop i w)
          && Cfg.humidifierEnabled (persistentConfiguration (loop i w))).
Proof.
  intros Htick. unfold loop. cbv zeta. rewrite loop_now.
  set (w1 := perform (delay 2) (set_clock _ w)).
  assert (Q1 : quiet w w1) by (subst w1; quiet_steps).
  clearbody w1.
  set (w2 := if actionButtonFires i then onActionButton w1 else w1).
  assert (Q2 : quiet w w2).
  { apply (quiet_trans _ _ _ Q1). subst w2. apply quiet_if.
    - apply onActionButton_quiet.
    - apply quiet_same; reflexivity. }
  clearbody w2.
  set (w3 := if nextModeButtonFires i then onNextModeButton w2 else w2).
  assert (Q3 : quiet w w3).
  { apply (quiet_trans _ _ _ Q2). subst w3. apply quiet_if.
    - apply onNextModeButton_quiet.
    - apply quiet_same; reflexivity. }
  clearbody w3.
  replace (nextSensorSampling w3) with (nextSensorSampling w)
    by (symmetry; apply Q3).
  unfold samplingTick in Htick. rewrite Htick.
  rewrite (draw_relayPin _ updateDisplay_board), draw_humidifierOn,
    draw_persistentConfiguration.
  apply updateRelayStatus_pin.
Qed.

(** C10. The action button, the next-mode button and [setup] never write
    the relay pin, and an iteration of [loop] writes it only when it
    samples the sensor, in which case the pin is low exactly when the
    relay flag is set and the humidifier enabled.  So a press that
    toggles [humidifierEnabled] or edits a threshold changes and stores
    the configuration while the pin keeps its level through every
    following iteration that does not sample. *)
Theorem relay_written_on_sampling_ticks_only (w : World) (i : Inputs)
    (inputs : list Inputs) :
  quiet w (onActionButton w)
  /\ quiet w (onNextModeButton w)
  /\ quiet w (setup w)
  /\ (In (currentMode w)
         [humidifierEnabled; humidifierLowerOnThreshold;
          humidifierUpperOffThreshold] ->
      eeprom (onActionButton w) = persistentConfiguration (onActionButton w))
  /\ (currentMode w = humidifierEnabled ->
      Cfg.humidifierEnabled (persistentConfiguration (onActionButton w))
      = negb (Cfg.humidifierEnabled (persistentConfiguration w)))
  /\ (samplingTick i w = false -> quiet w (loop i w))
  /\ (noSamplingTick inputs w = true -> quiet w (run inputs w))
  /\ (samplingTick i w = true ->
      relayPin (loop i w)
      = negb (humidifierOn (loop i w)
              && Cfg.humidifierEnabled (persistentConfiguration (loop i w)))).
Proof.
  split; [apply onActionButton_quiet|].
  split; [apply onNextModeButton_quiet|].
  split; [apply setup_quiet|].
  split.
  { intros Hmode. rewrite onActionButton_eeprom.
    cbn [In] in Hmode.
    destruct Hmode as [<- | [<- | [<- | []]]]; reflexivity. }
  split.
  { intros Hmode. rewrite onActionButton_persistentConfiguration, Hmode.
    reflexivity. }
  split; [apply loop_quiet|].
  split; [apply run_quiet | apply loop_sampling].
Qed.

Lemma relay_written_on_sampling_ticks_only_witness :
  let idle := mkInputs 1 false false 2000 (mkDisplayData 21 70) in
  let next := mkInputs 1 false true 2000 (mkDisplayData 21 70) in
  let action := mkInputs 1 true false 2000 (mkDisplayData 21 70) in
  let w := run [idle; next; next; next] (boot Cfg.default) in
  quiet w (run [action; idle; idle] w)
  /\ relayPin w = false
  /\ Cfg.humidifierEnabled
       (persistentConfiguration (run [action; idle; idle] w)) = false.
Proof.
  cbv zeta. split; [| split; reflexivity].
  refine (proj1 (proj2 (proj2 (proj2 (proj2 (proj2 (proj2
            (relay_written_on_sampling_ticks_only _
               (mkInputs 1 false false 2000 (mkDisplayData 21 70)) _)))))))
            _).
  vm_compute. reflexivity.
Defined.

(** * Further properties *)

(** ** Library calls change the board only *)

Lemma delays_app (a b : list Effect) : delays (a ++ b) = delays a ++ delays b.
Proof.
  induction a as [|x a IH]; [reflexivity|].
  destruct x; cbn; try exact IH. f_equal; exact IH.
Qed.

Lemma clockAfter_app (a b : list Effect) (c : Z) :
  clockAfter (a ++ b) c = clockAfter b (clockAfter a c).
Proof. unfold clockAfter. rewrite delays_app. apply fold_left_app. Qed.

Lemma perform_board_after (e : Effect) (w : World) :
  perform e w = board_after [e] w.
Proof.
  destruct w, e; unfold board_after; cbn; try reflexivity.
  destruct (_ =? _); reflexivity.
Qed.

Lemma perform_all_board_after (calls : list Effect) (w : World) :
  perform_all calls w = board_after calls w.
Proof.
  revert w. induction calls as [|x l IH]; intros w.
  - destruct w. unfold board_after. cbn. rewrite app_nil_r. reflexivity.
  - change (perform_all (x :: l) w) with (perform_all l (perform x w)).
    rewrite IH, perform_board_after. unfold board_after.
    cbn [persistentConfiguration humidifierOn currentMode modeSelectedTime
         liveData maxData minData brightness hasInitializedMinMax
         nextSensorSampling eeprom relayPin clock log].
    change (x :: l) with ([x] ++ l).
    rewrite eepromWrites_app, relayWrites_app, clockAfter_app,
      !last_app_default, <- app_assoc.
    reflexivity.
Qed.

Lemma draw_board_after (f : World -> list Effect) (w : World) :
  draw f w = board_after (f w) w.
Proof. apply perform_all_board_after. Qed.

Lemma printTwoDigitValue_delays (value digit : Z) :
  delays (printTwoDigitValue value digit) = [].
Proof. unfold printTwoDigitValue. split_conditions; reflexivity. Qed.

Lemma updateDisplay_delays (w : World) : delays (updateDisplay w) = [].
Proof.
  unfold updateDisplay, printTempAndHumidityOverview,
    printHumidifierConfigValueWithBlinking, printBooleanConfigurationStatus.
  destruct (currentMode w); cbn [orb];
    rewrite ?orb_true_r, ?orb_false_r;
    destruct (getBlinkStatus w);
    rewrite ?delays_app, ?printTwoDigitValue_delays;
    split_conditions; reflexivity.
Qed.

(** Drawing the display changes nothing but the log. *)
Lemma draw_updateDisplay (w : World) :
  draw updateDisplay w = set_log (log w ++ updateDisplay w) w.
Proof.
  rewrite draw_board_after. unfold board_after, clockAfter.
  rewrite (proj1 (updateDisplay_board w)), (proj2 (updateDisplay_board w)),
    updateDisplay_delays.
  destruct w; reflexivity.
Qed.

(** ** Invariants of the main loop *)

Section LoopInvariant.

Variable P : World -> Prop.
Hypothesis P_set_clock : forall w c, P w -> P (set_clock c w).
Hypothesis P_delay : forall w ms, P w -> P (perform (delay ms) w).
Hypothesis P_set_nextSensorSampling :
  forall w v, P w -> P (set_nextSensorSampling v w).
Hypothesis P_onActionButton : forall w, P w -> P (onActionButton w).
Hypothesis P_onNextModeButton : forall w, P w -> P (onNextModeButton w).
Hypothesis P_updateSensorData : forall w r, P w -> P (updateSensorData r w).
Hypothesis P_updateRelayStatus : forall w, P w -> P (updateRelayStatus w).
Hypothesis P_updateDisplay : forall w, P w -> P (draw updateDisplay w).

Lemma loop_invariant (i : Inputs) (w : World) : P w -> P (loop i w).
Proof.
  intros Hw. unfold loop. cbv zeta.
  apply P_updateDisplay.
  set (w1 := perform (delay 2) (set_clock _ w)).
  assert (H1 : P w1) by (subst w1; auto).
  clearbody w1.
  set (w2 := if actionButtonFires i then onActionButton w1 else w1).
  assert (H2 : P w2) by (subst w2; destruct (actionButtonFires i); auto).
  clearbody w2.
  set (w3 := if nextModeButtonFires i then onNextModeButton w2 else w2).
  assert (H3 : P w3) by (subst w3; destruct (nextModeButtonFires i); auto).
  clearbody w3.
  destruct (_ >? _); auto.
Qed.

Lemma run_invariant (inputs : list Inputs) (w : World) :
  P w -> P (run inputs w).
Proof.
  unfold run. revert w. induction inputs as [|i inputs IH]; intros w Hw.
  - exact Hw.
  - cbn [fold_left]. apply IH, loop_invariant, Hw.
Qed.

End LoopInvariant.

(** ** Mode state machine *)

Lemma onNextModeButton_currentMode (w : World) :
  currentMode (onNextModeButton w)
  = DisplayMode_of_Z
      ((DisplayMode_to_Z (currentMode w) + 1) mod DisplayMode_to_Z END).
Proof.
  unfold onNextModeButton, draw. cbv zeta.
  rewrite perform_all_currentMode. reflexivity.
Qed.

Lemma onActionButton_currentMode (w : World) :
  currentMode (onActionButton w) = currentMode w.
Proof.
  unfold onActionButton, draw. cbv zeta.
  rewrite perform_all_currentMode.
  destruct (currentMode w) eqn:Hmode;
    rewrite ?perform_all_currentMode, ?perform_currentMode;
    split_conditions; exact Hmode.
Qed.

Lemma updateSensorData_currentMode (r : DisplayData) (w : World) :
  currentMode (updateSensorData r w) = currentMode w.
Proof.
  unfold updateSensorData. cbv zeta.
  push_projection currentMode. reflexivity.
Qed.

Lemma updateRelayStatus_currentMode (w : World) :
  currentMode (updateRelayStatus w) = currentMode w.
Proof.
  unfold updateRelayStatus. cbv zeta. rewrite perform_currentMode.
  split_conditions; reflexivity.
Qed.

(** X1. The next-mode button steps through live, min, max,
    humidifierEnabled, humidifierLowerOnThreshold,
    humidifierUpperOffThreshold and back to live; it never selects the
    enumeration's end marker, and six presses return to the mode they
    started from. *)
Theorem onNextModeButton_cycle (w : World) :
  currentMode (onNextModeButton w)
  = match currentMode w with
    | live => min
    | min => max
    | max => humidifierEnabled
    | humidifierEnabled => humidifierLowerOnThreshold
    | humidifierLowerOnThreshold => humidifierUpperOffThreshold
    | humidifierUpperOffThreshold => live
    | END => min
    end
  /\ currentMode (onNextModeButton w) <> END
  /\ (currentMode w <> END ->
      currentMode (presses NextModeButton 6 w) = currentMode w).
Proof.
  split; [|split].
  - rewrite onNextModeButton_currentMode. destruct (currentMode w); reflexivity.
  - rewrite onNextModeButton_currentMode.
    destruct (currentMode w); discriminate.
  - intros Hmode. cbv beta iota delta [presses Nat.iter nat_rect press].
    rewrite !onNextModeButton_currentMode.
    destruct (currentMode w); try reflexivity. contradiction.
Qed.

Lemma onNextModeButton_cycle_witness :
  currentMode (presses NextModeButton 6 (editing max 80 96)) = max.
Proof.
  refine (proj2 (proj2 (onNextModeButton_cycle (editing max 80 96))) _).
  discriminate.
Defined.

(** X2. After power-up, whatever the stored record, the buttons and the
    readings, the active mode is one of the six display modes in every
    iteration of the main loop, so every iteration draws a screen. *)
Theorem run_mode_valid (stored : Cfg.PersistentConfiguration)
    (inputs : list Inputs) :
  let w := run inputs (boot stored) in
  currentMode w <> END /\ updateDisplay w <> [].
Proof.
  cbv zeta.
  assert (Hmode : currentMode (run inputs (boot stored)) <> END).
  { apply (run_invariant (fun w => currentMode w <> END)).
    - intros w c Hw. exact Hw.
    - intros w ms Hw. rewrite perform_currentMode. exact Hw.
    - intros w v Hw. exact Hw.
    - intros w Hw. rewrite onActionButton_currentMode. exact Hw.
    - intros w _. rewrite onNextModeButton_currentMode.
      destruct (currentMode w); discriminate.
    - intros w r Hw. rewrite updateSensorData_currentMode. exact Hw.
    - intros w Hw. rewrite updateRelayStatus_currentMode. exact Hw.
    - intros w Hw. unfold draw. rewrite perform_all_currentMode. exact Hw.
    - unfold boot, setup. cbv zeta. rewrite !perform_currentMode.
      split_conditions; rewrite ?perform_currentMode; discriminate. }
  split; [exact Hmode|].
  unfold updateDisplay, printTempAndHumidityOverview,
    printHumidifierConfigValueWithBlinking, printHumidifierConfigPrefix,
    printCelsiusAndRelHumiditySigns, printTempHumidityMinimumSigns,
    printTempHumidityMaximumSigns.
  destruct (currentMode (run inputs (boot stored)));
    try contradiction; cbn [orb]; rewrite ?orb_true_r;
    split_conditions; cbn [app]; discriminate.
Qed.

(** ** Sensor sample tracker, continued *)

(** [updateSensorData] in closed form: the extrema it starts from are the
    recorded ones, or the reading itself on the first call. *)
Lemma updateSensorData_closed_form (r : DisplayData) (w : World) :
  let mn := if hasInitializedMinMax w then minData w else r in
  let mx := if hasInitializedMinMax w then maxData w else r in
  updateSensorData r w
  = set_hasInitializedMinMax true
      (set_maxData
         (mkDisplayData (Z.max (temperature mx) (temperature r))
                        (Z.max (humidity mx) (humidity r)))
         (set_minData
            (mkDisplayData (Z.min (temperature mn) (temperature r))
                           (Z.min (humidity mn) (humidity r)))
            (set_liveData r w))).
Proof.
  destruct w as [cfg on mode mst [lt lh] [xt xh] [nt nh] br init nxt ee pin clk lg].
  destruct r as [t h]. unfold updateSensorData.
  destruct init; cbn;
    repeat match goal with
           | |- context [?a <? ?b] =>
               is_var a; is_var b; destruct (Z.ltb_spec a b); cbn
           | |- context [?a >? ?b] =>
               is_var a; is_var b;
               rewrite (Z.gtb_ltb a b); destruct (Z.ltb_spec b a); cbn
           end;
    cbv [set_hasInitializedMinMax set_maxData set_minData set_liveData
         persistentConfiguration humidifierOn currentMode modeSelectedTime
         liveData maxData minData brightness hasInitializedMinMax
         nextSensorSampling eeprom relayPin clock log temperature humidity];
    f_equal; try reflexivity; f_equal; lia.
Qed.

(** X3. The first reading after power-up becomes the live value, the
    minimum and the maximum at once, whatever the extrema held before,
    and marks the extrema as initialised for good. *)
Theorem updateSensorData_first_reading (w : World) (r r' : DisplayData) :
  hasInitializedMinMax w = false ->
  let w' := updateSensorData r w in
  liveData w' = r /\ minData w' = r /\ maxData w' = r
  /\ hasInitializedMinMax w' = true
  /\ hasInitializedMinMax (updateSensorData r' w') = true.
Proof.
  intros Hinit. cbv zeta. rewrite !updateSensorData_closed_form. cbv zeta.
  rewrite Hinit. destruct w, r. cbn.
  rewrite !Z.min_id, !Z.max_id. auto.
Qed.

Lemma updateSensorData_first_reading_witness :
  minData (updateSensorData (mkDisplayData 21 55) (boot Cfg.default))
  = mkDisplayData 21 55.
Proof.
  refine (proj1 (proj2 (updateSensorData_first_reading
                          (boot Cfg.default) (mkDisplayData 21 55)
                          (mkDisplayData 0 0) _))).
  reflexivity.
Defined.

(** X4. Once initialised, the recorded minimum and maximum are running
    extrema, component by component: each reading replaces the minimum
    by the smaller and the maximum by the larger of the old value and the
    reading, so the minimum never rises and the maximum never falls. *)
Theorem updateSensorData_running_extrema (w : World) (r : DisplayData) :
  hasInitializedMinMax w = true ->
  let w' := updateSensorData r w in
  liveData w' = r
  /\ temperature (minData w') = Z.min (temperature (minData w)) (temperature r)
  /\ humidity (minData w') = Z.min (humidity (minData w)) (humidity r)
  /\ temperature (maxData w') = Z.max (temperature (maxData w)) (temperature r)
  /\ humidity (maxData w') = Z.max (humidity (maxData w)) (humidity r)
  /\ temperature (minData w') <= temperature (minData w)
  /\ humidity (minData w') <= humidity (minData w)
  /\ temperature (maxData w) <= temperature (maxData w')
  /\ humidity (maxData w) <= humidity (maxData w').
Proof.
  intros Hinit. cbv zeta. rewrite updateSensorData_closed_form. cbv zeta.
  rewrite Hinit. destruct w, r. cbn. repeat split; try reflexivity; lia.
Qed.

Lemma updateSensorData_running_extrema_witness :
  let w := updateSensorData (mkDisplayData 21 55) (boot Cfg.default) in
  temperature (minData (updateSensorData (mkDisplayData 19 60) w)) = 19.
Proof.
  cbv zeta.
  refine (proj1 (proj2 (updateSensorData_running_extrema
                          (updateSensorData (mkDisplayData 21 55)
                             (boot Cfg.default))
                          (mkDisplayData 19 60) _))).
  reflexivity.
Defined.

(** X5. Feeding the same reading twice in a row is the same as feeding
    it once: an unchanged reading leaves the whole state as it is. *)
Theorem updateSensorData_idempotent (w : World) (r : DisplayData) :
  updateSensorData r (updateSensorData r w) = updateSensorData r w.
Proof.
  rewrite (updateSensorData_closed_form r (updateSensorData r w)).
  rewrite (updateSensorData_closed_form r w). cbv zeta.
  destruct w, r.
  cbv [set_hasInitializedMinMax set_maxData set_minData set_liveData
       persistentConfiguration humidifierOn currentMode modeSelectedTime
       liveData maxData minData brightness hasInitializedMinMax
       nextSensorSampling eeprom relayPin clock log temperature humidity].
  f_equal; try reflexivity; f_equal; lia.
Qed.

Lemma onActionButton_data (w : World) :
  liveData (onActionButton w) = liveData w
  /\ minData (onActionButton w)
     = match currentMode w with min => liveData w | _ => minData w end
  /\ maxData (onActionButton w)
     = match currentMode w with max => liveData w | _ => maxData w end.
Proof.
  unfold onActionButton, draw. cbv zeta.
  rewrite perform_all_liveData, perform_all_minData, perform_all_maxData.
  destruct (currentMode w);
    rewrite ?perform_all_liveData, ?perform_all_minData,
      ?perform_all_maxData, ?perform_liveData, ?perform_minData,
      ?perform_maxData;
    split_conditions; repeat split; reflexivity.
Qed.

Lemma updateSensorData_extrema_step (r : DisplayData) (w : World) :
  extrema_ok (updateSensorData r w).
Proof.
  rewrite updateSensorData_closed_form. cbv zeta. unfold extrema_ok.
  destruct w, r. cbn. lia.
Qed.

(** X6. In the min mode the action button overwrites the recorded
    minimum with the live reading, in the max mode the maximum, and in
    no mode anything else of the sensor data.  With the sample tracker
    this keeps min <= live <= max, for temperature and humidity, in every
    iteration of the main loop after power-up, resets included. *)
Theorem run_extrema (w : World) (stored : Cfg.PersistentConfiguration)
    (inputs : list Inputs) :
  liveData (onActionButton w) = liveData w
  /\ minData (onActionButton w)
     = (match currentMode w with min => liveData w | _ => minData w end)
  /\ maxData (onActionButton w)
     = (match currentMode w with max => liveData w | _ => maxData w end)
  /\ extrema_ok (run inputs (boot stored)).
Proof.
  destruct (onActionButton_data w) as [Hlive [Hmin Hmax]].
  repeat (split; [assumption|]).
  apply (run_invariant extrema_ok).
  - intros v c Hv. exact Hv.
  - intros v ms Hv. unfold extrema_ok.
    rewrite perform_liveData, perform_minData, perform_maxData. exact Hv.
  - intros v x Hv. exact Hv.
  - intros v Hv. unfold extrema_ok in *.
    destruct (onActionButton_data v) as [-> [-> ->]].
    destruct (currentMode v); lia.
  - intros v Hv. unfold extrema_ok, onNextModeButton, draw. cbv zeta.
    rewrite perform_all_liveData, perform_all_minData, perform_all_maxData.
    exact Hv.
  - intros v r _. apply updateSensorData_extrema_step.
  - intros v Hv. unfold extrema_ok, updateRelayStatus. cbv zeta.
    rewrite perform_liveData, perform_minData, perform_maxData.
    split_conditions; exact Hv.
  - intros v Hv. unfold extrema_ok, draw.
    rewrite perform_all_liveData, perform_all_minData, perform_all_maxData.
    exact Hv.
  - unfold extrema_ok, boot, setup. cbv zeta.
    rewrite !perform_liveData, !perform_minData, !perform_maxData.
    split_conditions;
      rewrite ?perform_liveData, ?perform_minData, ?perform_maxData;
      cbn; lia.
Qed.

(** ** Configuration store, continued *)

Lemma setup_configuration (w : World) :
  persistentConfiguration (setup w)
  = (if Cfg.magic_mismatch (eeprom w) then Cfg.default else eeprom w)
  /\ eeprom (setup w)
     = (if Cfg.magic_mismatch (eeprom w) then Cfg.default else eeprom w).
Proof.
  destruct w as [cfg on mode mst lv mx mn br init nxt ee pin clk lg].
  unfold setup.
  cbn [perform set_log set_persistentConfiguration
    persistentConfiguration eeprom log humidifierOn currentMode
    modeSelectedTime liveData maxData minData brightness
    hasInitializedMinMax nextSensorSampling relayPin clock].
  destruct (Cfg.magic_mismatch ee); split; reflexivity.
Qed.

(** X7. A stored record that carries the expected magic number is taken
    over as it is, whatever its thresholds, and [setup] then writes
    nothing to the EEPROM: it only reports the load on the serial line
    and initialises the pin, the display and the sensor. *)
Theorem setup_loads_stored_record (w : World) :
  Cfg.magic_mismatch (eeprom w) = false ->
  persistentConfiguration (setup w) = eeprom w
  /\ eeprom (setup w) = eeprom w
  /\ log (setup w)
     = log w ++ [Serial_begin 9600;
                 Serial_println "Loaded config from EEPROM";
                 pinMode_OUTPUT PIN_HUMIDIFIER_RELAY;
                 display_on DISPLAY_NCHIP; sensor_setup PIN_SENSOR_DATA].
Proof.
  intros Hmagic.
  destruct (setup_configuration w) as [Hcfg Hee].
  rewrite Hmagic in Hcfg, Hee.
  split; [exact Hcfg|]. split; [exact Hee|].
  destruct w as [cfg on mode mst lv mx mn br init nxt ee pin clk lg].
  cbn [eeprom] in Hmagic. unfold setup.
  cbn [perform set_log set_persistentConfiguration
    persistentConfiguration eeprom log humidifierOn currentMode
    modeSelectedTime liveData maxData minData brightness
    hasInitializedMinMax nextSensorSampling relayPin clock].
  rewrite Hmagic.
  cbn [perform set_log set_persistentConfiguration
    persistentConfiguration eeprom log humidifierOn currentMode
    modeSelectedTime liveData maxData minData brightness
    hasInitializedMinMax nextSensorSampling relayPin clock].
  rewrite <- !app_assoc. reflexivity.
Qed.

Lemma setup_loads_stored_record_witness :
  persistentConfiguration
    (setup (power_up (Cfg.mk (to_int EEPROM_MAGIC_NUMBER) 200 10 false)))
  = Cfg.mk (to_int EEPROM_MAGIC_NUMBER) 200 10 false.
Proof.
  refine (proj1 (setup_loads_stored_record
                   (power_up (Cfg.mk (to_int EEPROM_MAGIC_NUMBER) 200 10 false))
                   _)).
  reflexivity.
Defined.

Lemma updateSensorData_eeprom (r : DisplayData) (w : World) :
  eeprom (updateSensorData r w) = eeprom w.
Proof.
  unfold updateSensorData. cbv zeta. push_projection eeprom. reflexivity.
Qed.

Lemma updateRelayStatus_eeprom (w : World) :
  eeprom (updateRelayStatus w) = eeprom w.
Proof.
  unfold updateRelayStatus. cbv zeta. rewrite perform_eeprom.
  split_conditions; reflexivity.
Qed.

Lemma onActionButton_stored_ok (w : World) :
  stored_ok w -> stored_ok (onActionButton w).
Proof.
  unfold stored_ok. intros [Hee Hmagic].
  rewrite onActionButton_eeprom, onActionButton_persistentConfiguration.
  cbv zeta. destruct (persistentConfiguration w) as [magic lower upper enabled].
  destruct (currentMode w); split; try assumption; reflexivity.
Qed.

(** X8. After power-up the EEPROM holds the active configuration, with a
    valid magic number, at the end of every complete iteration of the
    main loop: a change made with the action button is stored before the
    iteration is over.  So a power cycle between two iterations loads
    exactly the configuration that was active, without writing the
    EEPROM.  (Inside the action button handler, between the change and
    its [EEPROM.put], the store is behind; such states are not covered.) *)
Theorem run_configuration_persisted (stored : Cfg.PersistentConfiguration)
    (inputs : list Inputs) :
  let w := run inputs (boot stored) in
  stored_ok w
  /\ persistentConfiguration (boot (eeprom w)) = persistentConfiguration w
  /\ eeprom (boot (eeprom w)) = eeprom w.
Proof.
  cbv zeta.
  assert (Hok : stored_ok (run inputs (boot stored))).
  { apply (run_invariant stored_ok).
    - intros v c Hv. exact Hv.
    - intros v ms [He Hm]. split.
      + rewrite perform_eeprom, perform_persistentConfiguration. exact He.
      + rewrite perform_persistentConfiguration. exact Hm.
    - intros v x Hv. exact Hv.
    - apply onActionButton_stored_ok.
    - intros v [He Hm]. unfold stored_ok.
      rewrite onNextModeButton_persistentConfiguration.
      split; [|exact Hm].
      unfold onNextModeButton. cbv zeta.
      rewrite (draw_eeprom _ updateDisplay_board). exact He.
    - intros v r [He Hm]. unfold stored_ok.
      rewrite updateSensorData_eeprom,
        updateSensorData_persistentConfiguration. auto.
    - intros v [He Hm]. unfold stored_ok.
      rewrite updateRelayStatus_eeprom,
        updateRelayStatus_persistentConfiguration. auto.
    - intros v [He Hm]. unfold stored_ok.
      rewrite (draw_eeprom _ updateDisplay_board),
        draw_persistentConfiguration. auto.
    - unfold stored_ok, boot.
      destruct (setup_configuration (power_up stored)) as [-> ->].
      split; [reflexivity|].
      cbn [eeprom power_up].
      destruct (Cfg.magic_mismatch stored) eqn:Hmagic;
        [reflexivity | exact Hmagic]. }
  split; [exact Hok|].
  destruct Hok as [He Hm].
  set (W := run inputs (boot stored)) in *.
  destruct (setup_configuration (power_up (eeprom W))) as [Hc Hs].
  cbn [eeprom power_up] in Hc, Hs.
  fold (boot (eeprom W)) in Hc, Hs.
  rewrite Hc, Hs, He, Hm. auto.
Qed.

(** X9. In the humidifierEnabled mode two presses of the action button
    bring the configuration back to what it was, and the EEPROM holds it
    again. *)
Theorem onActionButton_enabled_twice (w : World) :
  currentMode w = humidifierEnabled ->
  persistentConfiguration (presses ActionButton 2 w)
  = persistentConfiguration w
  /\ eeprom (presses ActionButton 2 w) = persistentConfiguration w.
Proof.
  intros Hmode. cbv beta iota delta [presses Nat.iter nat_rect press].
  rewrite onActionButton_eeprom, onActionButton_currentMode, Hmode.
  rewrite (onActionButton_persistentConfiguration (onActionButton w)).
  cbv zeta.
  rewrite onActionButton_currentMode, Hmode.
  rewrite onActionButton_persistentConfiguration. cbv zeta. rewrite Hmode.
  destruct (persistentConfiguration w) as [magic lower upper enabled].
  cbn. rewrite negb_involutive. auto.
Qed.

Lemma onActionButton_enabled_twice_witness :
  persistentConfiguration
    (presses ActionButton 2 (editing humidifierEnabled 80 96))
  = persistentConfiguration (editing humidifierEnabled 80 96).
Proof.
  refine (proj1 (onActionButton_enabled_twice
                   (editing humidifierEnabled 80 96) _)).
  reflexivity.
Defined.

(** ** Cycling through the threshold values *)

Lemma presses_succ (b : Button) (n : nat) (w : World) :
  presses b (S n) w = press (presses b n w) b.
Proof. reflexivity. Qed.

Lemma lower_presses (N k : Z) (n : nat) (w : World) :
  currentMode w = humidifierLowerOnThreshold ->
  0 <= k < N -> N <= 19 ->
  Cfg.humidifierLowerOnThreshold (persistentConfiguration w) = 60 + 2 * k ->
  Cfg.humidifierUpperOffThreshold (persistentConfiguration w) = 60 + 2 * N ->
  let w' := presses ActionButton n w in
  currentMode w' = humidifierLowerOnThreshold
  /\ Cfg.humidifierUpperOffThreshold (persistentConfiguration w') = 60 + 2 * N
  /\ Cfg.humidifierLowerOnThreshold (persistentConfiguration w')
     = 60 + 2 * ((k + Z.of_nat n) mod N).
Proof.
  intros Hmode Hk HN Hlower Hupper. cbv zeta.
  induction n as [|n [IHmode [IHupper IHlower]]].
  - cbn [presses Nat.iter nat_rect Z.of_nat].
    rewrite Z.add_0_r, Z.mod_small by lia. auto.
  - rewrite presses_succ. cbn [press].
    rewrite onActionButton_currentMode.
    rewrite onActionButton_persistentConfiguration, IHmode. cbv zeta.
    split; [reflexivity|].
    destruct (persistentConfiguration (presses ActionButton n w))
      as [magic lower upper enabled].
    cbn [Cfg.humidifierLowerOnThreshold Cfg.humidifierUpperOffThreshold
         Cfg.set_lower Cfg.set_upper] in IHupper, IHlower |- *. subst lower upper.
    split; [reflexivity|].
    rewrite Nat2Z.inj_succ, <- Z.add_1_r, Z.add_assoc.
    rewrite <- (Zplus_mod_idemp_l (k + Z.of_nat n)).
    pose proof (Z.mod_pos_bound (k + Z.of_nat n) N ltac:(lia)) as Hm.
    set (m := (k + Z.of_nat n) mod N) in *.
    unfold to_byte. rewrite Z.mod_small by (change (2 ^ 8) with 256; lia).
    rewrite Z.geb_leb.
    destruct (Z.leb_spec (60 + 2 * N) (60 + 2 * m + 2)).
    + replace (m + 1) with N by lia. rewrite Z_mod_same_full. reflexivity.
    + rewrite Z.mod_small by lia. lia.
Qed.

(** X10. In the lower-threshold mode, with even thresholds
    60 <= lower < upper <= 98 (as in every configuration reached from
    the defaults), the action button walks the lower threshold through
    the even values 60, 62, ..., upper - 2 in a cycle: after [n] presses
    it is 60 + 2 * ((lower - 60) / 2 + n mod (upper - 60) / 2), the upper
    threshold is untouched, and after (upper - 60) / 2 presses the lower
    threshold is back where it was. *)
Theorem lower_threshold_cycle (w : World) (n : nat) :
  currentMode w = humidifierLowerOnThreshold ->
  thresholds_inv (persistentConfiguration w) ->
  let lower := Cfg.humidifierLowerOnThreshold (persistentConfiguration w) in
  let upper := Cfg.humidifierUpperOffThreshold (persistentConfiguration w) in
  let period := (upper - 60) / 2 in
  Cfg.humidifierLowerOnThreshold
    (persistentConfiguration (presses ActionButton n w))
  = 60 + 2 * (((lower - 60) / 2 + Z.of_nat n) mod period)
  /\ Cfg.humidifierUpperOffThreshold
       (persistentConfiguration (presses ActionButton n w)) = upper
  /\ Cfg.humidifierLowerOnThreshold
       (persistentConfiguration (presses ActionButton (Z.to_nat period) w))
     = lower.
Proof.
  intros Hmode (Hfloor & Hordered & Hceiling & Heven_l & Heven_u). cbv zeta.
  set (lower := Cfg.humidifierLowerOnThreshold (persistentConfiguration w)) in *.
  set (upper := Cfg.humidifierUpperOffThreshold (persistentConfiguration w)) in *.
  assert (Hl : lower = 60 + 2 * ((lower - 60) / 2))
    by (Z.div_mod_to_equations; lia).
  assert (Hu : upper = 60 + 2 * ((upper - 60) / 2))
    by (Z.div_mod_to_equations; lia).
  assert (Hk : 0 <= (lower - 60) / 2 < (upper - 60) / 2)
    by (Z.div_mod_to_equations; lia).
  assert (HN : (upper - 60) / 2 <= 19) by (Z.div_mod_to_equations; lia).
  pose proof (fun m => lower_presses _ _ m w Hmode Hk HN Hl Hu) as H.
  cbv zeta in H.
  split; [apply H|]. split.
  - rewrite (proj1 (proj2 (H n))). symmetry. exact Hu.
  - rewrite (proj2 (proj2 (H _))), Z2Nat.id by lia.
    rewrite <- (Z.mul_1_l ((upper - 60) / 2)) at 1.
    rewrite Z.mod_add, Z.mod_small by lia. lia.
Qed.

Lemma lower_threshold_cycle_witness :
  Cfg.humidifierLowerOnThreshold
    (persistentConfiguration
       (presses ActionButton 3 (editing humidifierLowerOnThreshold 80 96)))
  = 86.
Proof.
  refine (proj1 (lower_threshold_cycle
                   (editing humidifierLowerOnThreshold 80 96) 3 _ _)).
  - reflexivity.
  - vm_compute.
    repeat split; try discriminate; reflexivity.
Defined.

Lemma upper_presses (N j lower : Z) (n : nat) (w : World) :
  currentMode w = humidifierUpperOffThreshold ->
  0 <= j < N -> 0 <= lower -> lower + 2 * N = 98 ->
  Cfg.humidifierLowerOnThreshold (persistentConfiguration w) = lower ->
  Cfg.humidifierUpperOffThreshold (persistentConfiguration w)
  = lower + 2 + 2 * j ->
  let w' := presses ActionButton n w in
  currentMode w' = humidifierUpperOffThreshold
  /\ Cfg.humidifierLowerOnThreshold (persistentConfiguration w') = lower
  /\ Cfg.humidifierUpperOffThreshold (persistentConfiguration w')
     = lower + 2 + 2 * ((j + Z.of_nat n) mod N).
Proof.
  intros Hmode Hj Hl HN Hlower Hupper. cbv zeta.
  induction n as [|n [IHmode [IHlower IHupper]]].
  - cbn [presses Nat.iter nat_rect Z.of_nat].
    rewrite Z.add_0_r, Z.mod_small by lia. auto.
  - rewrite presses_succ. cbn [press].
    rewrite onActionButton_currentMode.
    rewrite onActionButton_persistentConfiguration, IHmode. cbv zeta.
    split; [reflexivity|].
    destruct (persistentConfiguration (presses ActionButton n w))
      as [magic lower' upper enabled].
    cbn [Cfg.humidifierLowerOnThreshold Cfg.humidifierUpperOffThreshold
         Cfg.set_lower Cfg.set_upper] in IHupper, IHlower |- *. subst lower' upper.
    split; [reflexivity|].
    rewrite Nat2Z.inj_succ, <- Z.add_1_r, Z.add_assoc.
    rewrite <- (Zplus_mod_idemp_l (j + Z.of_nat n)).
    pose proof (Z.mod_pos_bound (j + Z.of_nat n) N ltac:(lia)) as Hm.
    set (m := (j + Z.of_nat n) mod N) in *.
    unfold to_byte. rewrite !Z.mod_small by (change (2 ^ 8) with 256; lia).
    rewrite Z.gtb_ltb.
    destruct (Z.ltb_spec 98 (lower + 2 + 2 * m + 2)).
    + replace (m + 1) with N by lia. rewrite Z_mod_same_full. lia.
    + rewrite Z.mod_small by lia. lia.
Qed.

(** X11. In the upper-threshold mode, with even thresholds
    60 <= lower < upper <= 98, the action button walks the upper
    threshold through the even values lower + 2, ..., 98 in a cycle:
    after [n] presses it is
    lower + 2 + 2 * ((upper - lower - 2) / 2 + n mod (98 - lower) / 2),
    the lower threshold is untouched, and after (98 - lower) / 2 presses
    the upper threshold is back where it was. *)
Theorem upper_threshold_cycle (w : World) (n : nat) :
  currentMode w = humidifierUpperOffThreshold ->
  thresholds_inv (persistentConfiguration w) ->
  let lower := Cfg.humidifierLowerOnThreshold (persistentConfiguration w) in
  let upper := Cfg.humidifierUpperOffThreshold (persistentConfiguration w) in
  let period := (98 - lower) / 2 in
  Cfg.humidifierUpperOffThreshold
    (persistentConfiguration (presses ActionButton n w))
  = lower + 2 + 2 * (((upper - lower - 2) / 2 + Z.of_nat n) mod period)
  /\ Cfg.humidifierLowerOnThreshold
       (persistentConfiguration (presses ActionButton n w)) = lower
  /\ Cfg.humidifierUpperOffThreshold
       (persistentConfiguration (presses ActionButton (Z.to_nat period) w))
     = upper.
Proof.
  intros Hmode (Hfloor & Hordered & Hceiling & Heven_l & Heven_u). cbv zeta.
  set (lower := Cfg.humidifierLowerOnThreshold (persistentConfiguration w)) in *.
  set (upper := Cfg.humidifierUpperOffThreshold (persistentConfiguration w)) in *.
  assert (Hu : upper = lower + 2 + 2 * ((upper - lower - 2) / 2))
    by (Z.div_mod_to_equations; lia).
  assert (HN : lower + 2 * ((98 - lower) / 2) = 98)
    by (Z.div_mod_to_equations; lia).
  assert (Hj : 0 <= (upper - lower - 2) / 2 < (98 - lower) / 2)
    by (Z.div_mod_to_equations; lia).
  assert (Hl : 0 <= lower) by lia.
  pose proof (fun m => upper_presses _ _ _ m w Hmode Hj Hl HN eq_refl Hu) as H.
  cbv zeta in H.
  split; [apply H|]. split; [apply H|].
  rewrite (proj2 (proj2 (H _))), Z2Nat.id by lia.
  rewrite <- (Z.mul_1_l ((98 - lower) / 2)) at 1.
  rewrite Z.mod_add, Z.mod_small by lia. lia.
Qed.

Lemma upper_threshold_cycle_witness :
  Cfg.humidifierUpperOffThreshold
    (persistentConfiguration
       (presses ActionButton 2 (editing humidifierUpperOffThreshold 80 96)))
  = 82.
Proof.
  refine (proj1 (upper_threshold_cycle
                   (editing humidifierUpperOffThreshold 80 96) 2 _ _)).
  - reflexivity.
  - vm_compute.
    repeat split; try discriminate; reflexivity.
Defined.

(** ** Screens *)

(** X12. The live screen does not blink: whatever the clock and the
    blink anchor, it shows the unit signs on the sign positions, and what
    it draws depends on neither. *)
Theorem updateDisplay_live_steady (w : World) (c a : Z) :
  currentMode w = live ->
  shownSigns w = normalSigns live
  /\ updateDisplay (set_clock c (set_modeSelectedTime a w)) = updateDisplay w.
Proof.
  intros Hmode. unfold shownSigns, updateDisplay.
  destruct w as [cfg on mode mst lv mx mn br init nxt ee pin clk lg].
  cbn [currentMode set_clock set_modeSelectedTime liveData] in *. subst mode.
  unfold printTempAndHumidityOverview. rewrite !orb_true_r.
  split; [|reflexivity].
  unfold printTwoDigitValue. split_conditions; reflexivity.
Qed.

Lemma updateDisplay_live_steady_witness :
  shownSigns (set_clock 700 (editing live 80 96)) = normalSigns live.
Proof.
  refine (proj1 (updateDisplay_live_steady
                   (set_clock 700 (editing live 80 96)) 0 0 _)).
  reflexivity.
Defined.

(** X13. The humidifierEnabled screen fills all eight digit registers,
    "HUFI" on the left and " On " or " OFF" on the right according to the
    flag; it prints no number and does not depend on the clock. *)
Theorem updateDisplay_enabled_screen (w : World) :
  currentMode w = humidifierEnabled ->
  frame (updateDisplay w)
  = map Some
      ([B "00110111"; B "00111110"; B "01000111"; B "00000110";
        B "00000000"; B "01111110"]
       ++ (if Cfg.humidifierEnabled (persistentConfiguration w)
           then [B "00010101"; B "00000000"]
           else [B "01000111"; B "01000111"]))
  /\ printedNumbers (updateDisplay w) = [].
Proof.
  intros Hmode. unfold updateDisplay. rewrite Hmode.
  destruct (Cfg.humidifierEnabled (persistentConfiguration w));
    split; reflexivity.
Qed.

Lemma updateDisplay_enabled_screen_witness :
  printedNumbers (updateDisplay (editing humidifierEnabled 80 96)) = [].
Proof.
  refine (proj2 (updateDisplay_enabled_screen
                   (editing humidifierEnabled 80 96) _)).
  reflexivity.
Defined.

Lemma updateDisplay_set_log (l : list Effect) (w : World) :
  updateDisplay (set_log l w) = updateDisplay w.
Proof. destruct w; reflexivity. Qed.

(** X14. Selecting the next mode restarts the blink cycle: with the
    clock in its 32-bit range, the new mode starts at position 0 of the
    cycle with the blink status false, the button takes no time, and the
    screen it draws is the one of the new state.  The action button
    leaves the blink anchor alone. *)
Theorem onNextModeButton_restarts_blinking (w : World) :
  0 <= clock w < 2 ^ 32 ->
  let w' := onNextModeButton w in
  cyclePosition w' = 0
  /\ getBlinkStatus w' = false
  /\ clock w' = clock w
  /\ log w' = log w ++ updateDisplay w'
  /\ modeSelectedTime (onActionButton w) = modeSelectedTime w.
Proof.
  intros Hclock. cbv zeta.
  assert (Heq : onNextModeButton w
                = set_log (log w ++ updateDisplay (onNextModeButton w))
                    (set_modeSelectedTime (to_long (clock w))
                       (set_currentMode
                          (DisplayMode_of_Z
                             ((DisplayMode_to_Z (currentMode w) + 1)
                              mod DisplayMode_to_Z END)) w))).
  { unfold onNextModeButton at 1. cbv zeta. rewrite draw_updateDisplay.
    unfold onNextModeButton. cbv zeta.
    rewrite draw_updateDisplay, updateDisplay_set_log.
    destruct w; reflexivity. }
  assert (Hpos : cyclePosition (onNextModeButton w) = 0).
  { rewrite Heq. unfold cyclePosition. destruct w.
    cbn [millis clock modeSelectedTime set_log set_modeSelectedTime
         set_currentMode] in *.
    rewrite to_ulong_minus_to_long by lia.
    rewrite Z.sub_diag. reflexivity. }
  split; [exact Hpos|]. split.
  { unfold getBlinkStatus. fold (cyclePosition (onNextModeButton w)).
    rewrite Hpos. reflexivity. }
  split; [rewrite Heq; destruct w; reflexivity|].
  split; [rewrite Heq at 1; destruct w; reflexivity|].
  unfold onActionButton, draw. cbv zeta.
  rewrite perform_all_modeSelectedTime.
  destruct (currentMode w);
    rewrite ?perform_all_modeSelectedTime, ?perform_modeSelectedTime;
    split_conditions; reflexivity.
Qed.

Lemma onNextModeButton_restarts_blinking_witness :
  getBlinkStatus (onNextModeButton (set_clock 12345 (editing live 80 96)))
  = false.
Proof.
  refine (proj1 (proj2 (onNextModeButton_restarts_blinking
                          (set_clock 12345 (editing live 80 96)) _))).
  vm_compute. split; [discriminate | reflexivity].
Defined.

(** ** Reset animation and the time the action button takes *)

Lemma segment_byte (segment : Z) :
  0 <= segment <= 6 ->
  to_byte (Z.shiftl 1 segment) = Z.shiftl 1 segment
  /\ litSegments (Z.shiftl 1 segment) = [segment].
Proof.
  intros H.
  assert (Hcases : segment = 0 \/ segment = 1 \/ segment = 2 \/ segment = 3
                   \/ segment = 4 \/ segment = 5 \/ segment = 6) by lia.
  destruct Hcases as [-> | [-> | [-> | [-> | [-> | [-> | ->]]]]]];
    split; reflexivity.
Qed.

Lemma animation_frames (segments : list Z) :
  List.length segments = 6%nat ->
  presentResetAnimationWithSegments segments
  = flat_map animationFrame
      (map (fun segment => to_byte (Z.shiftl 1 segment)) segments).
Proof.
  intros Hlen.
  destruct segments as [|a [|b [|c [|d [|e [|f [|g rest]]]]]]];
    try discriminate Hlen.
  reflexivity.
Qed.

Lemma segment_bytes (segments : list Z) :
  Forall (fun segment => 0 <= segment <= 6) segments ->
  map (fun segment => to_byte (Z.shiftl 1 segment)) segments
  = map (Z.shiftl 1) segments
  /\ map litSegments (map (Z.shiftl 1) segments)
     = map (fun segment => [segment]) segments.
Proof.
  induction 1 as [|x l Hx _ [IH1 IH2]]; [split; reflexivity|].
  destruct (segment_byte x Hx) as [Hb Hs].
  cbn [map]. rewrite Hb, Hs, IH1, IH2. split; reflexivity.
Qed.

Lemma animationFrames_writesTo (bytes : list Z) (p : Z) :
  writesTo p (flat_map animationFrame bytes)
  = (if existsb (Z.eqb p) [3; 4; 7; 8] then bytes else []).
Proof.
  cbn [existsb]. rewrite !(Z.eqb_sym p), orb_false_r.
  induction bytes as [|x l IH].
  - destruct (_ || _); reflexivity.
  - cbn [flat_map animationFrame app writesTo]. rewrite IH.
    destruct (Z.eqb_spec 3 p) as [E | E]; [subst p; reflexivity|].
    destruct (Z.eqb_spec 4 p) as [E4 | E4]; [subst p; reflexivity|].
    destruct (Z.eqb_spec 7 p) as [E7 | E7]; [subst p; reflexivity|].
    destruct (Z.eqb_spec 8 p) as [E8 | E8]; [subst p; reflexivity|].
    reflexivity.
Qed.

Lemma animationFrames_delays (bytes : list Z) :
  delays (flat_map animationFrame bytes) = repeat 50 (List.length bytes)
  /\ printedNumbers (flat_map animationFrame bytes) = [].
Proof.
  induction bytes as [|x l [IH1 IH2]]; [split; reflexivity|].
  cbn [flat_map animationFrame app delays printedNumbers List.length repeat].
  rewrite IH1, IH2. split; reflexivity.
Qed.

(** X15. The reset animation, for any six segments of the seven, is six
    frames: each frame writes one byte, lighting exactly the frame's
    segment, to the digit registers 3, 4, 7 and 8 and to no other, and
    then waits 50 ms; it prints no number. *)
Theorem presentResetAnimationWithSegments_frames (segments : list Z) (p : Z) :
  List.length segments = 6%nat ->
  Forall (fun segment => 0 <= segment <= 6) segments ->
  writesTo p (presentResetAnimationWithSegments segments)
  = (if existsb (Z.eqb p) [3; 4; 7; 8] then map (Z.shiftl 1) segments else [])
  /\ map litSegments (map (Z.shiftl 1) segments)
     = map (fun segment => [segment]) segments
  /\ delays (presentResetAnimationWithSegments segments) = repeat 50 6
  /\ printedNumbers (presentResetAnimationWithSegments segments) = [].
Proof.
  intros Hlen Hall.
  destruct (segment_bytes segments Hall) as [Hbytes Hlit].
  rewrite (animation_frames segments Hlen), Hbytes.
  destruct (animationFrames_delays (map (Z.shiftl 1) segments)) as [Hd Hp].
  rewrite animationFrames_writesTo, Hd, Hp, length_map, Hlen.
  auto.
Qed.

Lemma presentResetAnimationWithSegments_frames_witness :
  delays (presentResetAnimationWithSegments RESET_ANIMATION_MIN) = repeat 50 6.
Proof.
  refine (proj1 (proj2 (proj2
            (presentResetAnimationWithSegments_frames RESET_ANIMATION_MIN 3
               _ _)))).
  - reflexivity.
  - unfold RESET_ANIMATION_MIN. repeat constructor; discriminate.
Defined.







(** ** Sampling schedule of the main loop *)

Lemma updateSensorData_nextSensorSampling (r : DisplayData) (w : World) :
  nextSensorSampling (updateSensorData r w) = nextSensorSampling w.
Proof.
  unfold updateSensorData. cbv zeta.
  push_projection nextSensorSampling. reflexivity.
Qed.

Lemma updateRelayStatus_sensor (w : World) :
  liveData (updateRelayStatus w) = liveData w
  /\ nextSensorSampling (updateRelayStatus w) = nextSensorSampling w.
Proof.
  unfold updateRelayStatus. cbv zeta.
  rewrite perform_liveData, perform_nextSensorSampling.
  split_conditions; split; reflexivity.
Qed.

Lemma onNextModeButton_liveData (w : World) :
  liveData (onNextModeButton w) = liveData w.
Proof.
  unfold onNextModeButton, draw. cbv zeta.
  rewrite perform_all_liveData. reflexivity.
Qed.

(** X17. An iteration of the main loop that does not sample leaves the
    live reading and the time of the next sampling as they are, whatever
    the buttons do; an iteration that samples takes the sensor's reading
    as the live reading and schedules the next sampling one minimum
    sampling period after its [now]. *)
Theorem loop_sampling_schedule (i : Inputs) (w : World) :
  let now := to_ulong (to_ulong (clock w + elapsed i) + 2) in
  (samplingTick i w = false ->
   liveData (loop i w) = liveData w
   /\ nextSensorSampling (loop i w) = nextSensorSampling w)
  /\ (samplingTick i w = true ->
      liveData (loop i w) = reading i
      /\ nextSensorSampling (loop i w)
         = to_ulong (now + minimumSamplingPeriod i)).
Proof.
  cbv zeta. unfold loop. cbv zeta. rewrite loop_now.
  set (w1 := perform (delay 2) (set_clock _ w)).
  assert (Q1 : quiet w w1) by (subst w1; quiet_steps).
  assert (L1 : liveData w1 = liveData w)
    by (subst w1; rewrite perform_liveData; reflexivity).
  clearbody w1.
  set (w2 := if actionButtonFires i then onActionButton w1 else w1).
  assert (Q2 : quiet w w2).
  { apply (quiet_trans _ _ _ Q1). subst w2. apply quiet_if.
    - apply onActionButton_quiet.
    - apply quiet_same; reflexivity. }
  assert (L2 : liveData w2 = liveData w).
  { subst w2. destruct (actionButtonFires i); [|exact L1].
    rewrite (proj1 (onActionButton_data w1)). exact L1. }
  clearbody w2.
  set (w3 := if nextModeButtonFires i then onNextModeButton w2 else w2).
  assert (Q3 : quiet w w3).
  { apply (quiet_trans _ _ _ Q2). subst w3. apply quiet_if.
    - apply onNextModeButton_quiet.
    - apply quiet_same; reflexivity. }
  assert (L3 : liveData w3 = liveData w).
  { subst w3. destruct (nextModeButtonFires i); [|exact L2].
    rewrite onNextModeButton_liveData. exact L2. }
  clearbody w3.
  assert (N3 : nextSensorSampling w3 = nextSensorSampling w) by apply Q3.
  unfold samplingTick. rewrite N3.
  unfold draw. rewrite perform_all_liveData, perform_all_nextSensorSampling.
  split; intros ->.
  - auto.
  - destruct (updateRelayStatus_sensor
                (updateSensorData (reading i)
                   (set_nextSensorSampling
                      (to_ulong
                         (to_ulong (to_ulong (clock w + elapsed i) + 2)
                          + minimumSamplingPeriod i)) w3))) as [-> ->].
    rewrite updateSensorData_nextSensorSampling.
    rewrite updateSensorData_closed_form. cbv zeta.
    split; reflexivity.
Qed.

Lemma loop_sampling_schedule_witness :
  let i := mkInputs 1 false false 2000 (mkDisplayData 21 70) in
  liveData (loop i (boot Cfg.default)) = mkDisplayData 21 70
  /\ nextSensorSampling (loop i (boot Cfg.default)) = 2003
  /\ liveData (loop i (loop i (boot Cfg.default))) = mkDisplayData 21 70
  /\ nextSensorSampling (loop i (loop i (boot Cfg.default))) = 2003.
Proof.
  cbv zeta.
  pose proof (proj2 (loop_sampling_schedule
                       (mkInputs 1 false false 2000 (mkDisplayData 21 70))
                       (boot Cfg.default)) eq_refl) as [H1 H2].
  pose proof (proj1 (loop_sampling_schedule
                       (mkInputs 1 false false 2000 (mkDisplayData 21 70))
                       (loop (mkInputs 1 false false 2000 (mkDisplayData 21 70))
                          (boot Cfg.default))) eq_refl) as [H3 H4].
  split; [exact H1|]. split; [exact H2|].
  split; [rewrite H3; exact H1 | rewrite H4; exact H2].
Defined.

(** ** Relay output *)

(** X18. The enable flag only gates the pin: with the humidifier
    disabled every call of [updateRelayStatus] drives the pin high
    whatever the humidity, while the relay flag follows the hysteresis
    exactly as it would with the humidifier enabled. *)
Theorem updateRelayStatus_disabled (w : World) (enabled : bool) :
  let gated :=
    set_persistentConfiguration
      (Cfg.set_enabled enabled (persistentConfiguration w)) w in
  humidifierOn (updateRelayStatus gated) = humidifierOn (updateRelayStatus w)
  /\ (enabled = false -> relayPin (updateRelayStatus gated) = true)
  /\ (enabled = true ->
      relayPin (updateRelayStatus gated)
      = negb (humidifierOn (updateRelayStatus w))).
Proof.
  cbv zeta.
  assert (Hon : humidifierOn
                  (updateRelayStatus
                     (set_persistentConfiguration
                        (Cfg.set_enabled enabled (persistentConfiguration w)) w))
                = humidifierOn (updateRelayStatus w)).
  { unfold updateRelayStatus. cbv zeta. rewrite !perform_humidifierOn.
    destruct w as [[magic lower upper en] on mode mst lv mx mn br init nxt ee pin clk lg].
    cbn [set_persistentConfiguration persistentConfiguration humidifierOn
         liveData Cfg.set_enabled Cfg.humidifierLowerOnThreshold
         Cfg.humidifierUpperOffThreshold].
    split_conditions; reflexivity. }
  split; [exact Hon|].
  pose proof (updateRelayStatus_pin
                (set_persistentConfiguration
                   (Cfg.set_enabled enabled (persistentConfiguration w)) w))
    as Hpin.
  cbv zeta in Hpin.
  rewrite updateRelayStatus_persistentConfiguration, Hon in Hpin.
  rewrite Hpin.
  destruct w as [[magic lower upper en] on mode mst lv mx mn br init nxt ee pin clk lg].
  cbn [set_persistentConfiguration persistentConfiguration
       Cfg.set_enabled Cfg.humidifierEnabled].
  split; intros ->.
  - apply negb_true_iff, andb_false_r.
  - rewrite andb_true_r. reflexivity.
Qed.

Lemma updateRelayStatus_disabled_witness :
  relayPin
    (updateRelayStatus
       (set_persistentConfiguration
          (Cfg.set_enabled false
             (persistentConfiguration
                (set_liveData (mkDisplayData 21 40) (editing live 80 96))))
          (set_liveData (mkDisplayData 21 40) (editing live 80 96))))
  = true.
Proof.
  refine (proj1 (proj2 (updateRelayStatus_disabled
                          (set_liveData (mkDisplayData 21 40)
                             (editing live 80 96)) false)) _).
  reflexivity.
Defined.

(** ** Brightness *)

Lemma onActionButton_live (w : World) :
  currentMode w = live ->
  brightness (onActionButton w) = (if brightness w =? 0 then 8 else 0)
  /\ persistentConfiguration (onActionButton w) = persistentConfiguration w
  /\ log (onActionButton w)
     = log w ++ display_setBright (if brightness w =? 0 then 8 else 0)
                :: updateDisplay w.
Proof.
  intros Hmode. unfold onActionButton. cbv zeta. rewrite Hmode.
  rewrite draw_updateDisplay.
  destruct w as [cfg on mode mst lv mx mn br init nxt ee pin clk lg].
  cbn [currentMode brightness log persistentConfiguration] in *. subst mode.
  destruct (br =? 0);
    cbn [perform set_log set_brightness brightness log
         persistentConfiguration humidifierOn currentMode modeSelectedTime
         liveData maxData minData hasInitializedMinMax nextSensorSampling
         eeprom relayPin clock];
    rewrite <- app_assoc; repeat split; reflexivity.
Qed.

(** X19. In the live mode the action button switches the display
    brightness between 0 and 8: a press sends the new level to the
    display before redrawing, never touches the configuration, and from
    the power-up level 0 the level after [n] presses is 8 for odd [n] and
    0 for even [n]. *)
Theorem onActionButton_brightness (w : World) (n : nat) :
  currentMode w = live ->
  brightness w = 0 ->
  brightness (presses ActionButton n w) = (if Nat.even n then 0 else 8)
  /\ persistentConfiguration (presses ActionButton n w)
     = persistentConfiguration w
  /\ log (onActionButton w) = log w ++ display_setBright 8 :: updateDisplay w.
Proof.
  intros Hmode Hbright.
  assert (H : currentMode (presses ActionButton n w) = live
              /\ brightness (presses ActionButton n w)
                 = (if Nat.even n then 0 else 8)
              /\ persistentConfiguration (presses ActionButton n w)
                 = persistentConfiguration w).
  { induction n as [|n [IHmode [IHbright IHcfg]]].
    - cbn [presses Nat.iter nat_rect Nat.even]. auto.
    - rewrite presses_succ. cbn [press].
      destruct (onActionButton_live _ IHmode) as [Hb [Hc _]].
      rewrite onActionButton_currentMode, Hb, Hc, IHbright.
      split; [exact IHmode|]. split; [|exact IHcfg].
      rewrite Nat.even_succ, <- Nat.negb_even.
      destruct (Nat.even n); reflexivity. }
  destruct H as [_ [Hb Hc]].
  split; [exact Hb|]. split; [exact Hc|].
  destruct (onActionButton_live w Hmode) as [_ [_ Hlog]].
  rewrite Hlog, Hbright. reflexivity.
Qed.

Lemma onActionButton_brightness_witness :
  brightness (presses ActionButton 3 (boot Cfg.default)) = 8.
Proof.
  refine (proj1 (onActionButton_brightness (boot Cfg.default) 3 _ _)).
  - reflexivity.
  - reflexivity.
Defined.

(** ** The two revisions of the sketch *)

Lemma showTemperature_printTwoDigitValue (t : Z) :
  Rev1.showTemperature t = printTwoDigitValue t 6.
Proof.
  unfold Rev1.showTemperature, printTwoDigitValue.
  split_conditions; reflexivity.
Qed.

Lemma showHumidity_printTwoDigitValue (h : Z) :
  Rev1.showHumidity h = printTwoDigitValue h 2.
Proof.
  unfold Rev1.showHumidity, printTwoDigitValue.
  split_conditions; reflexivity.
Qed.

Lemma draw_ext (f g : World -> list Effect) (w : World) :
  (forall w, f w = g w) -> draw f w = draw g w.
Proof. intros H. unfold draw. rewrite H. reflexivity. Qed.

Lemma updateDisplayData_updateDisplay (w : World) :
  Rev1.updateDisplayData w = updateDisplay w.
Proof.
  unfold Rev1.updateDisplayData, updateDisplay, Rev1.printTempAndHumidity,
    printTempAndHumidityOverview, printHumidifierConfigValueWithBlinking,
    getBlinkStatus.
  cbv zeta.
  rewrite !showTemperature_printTwoDigitValue,
    !showHumidity_printTwoDigitValue.
  destruct (currentMode w); reflexivity.
Qed.

Lemma printResetAnimation_presentResetAnimation (w : World) :
  Rev1.printResetAnimation w = presentResetAnimation w.
Proof. reflexivity. Qed.

(** X20. The refactoring between the two revisions of the sketch did not
    change a single display call: in every state the earlier
    [updateDisplayData], with its inlined blink test and its
    [showTemperature] and [showHumidity], issues exactly the calls of
    [updateDisplay], and the earlier reset animation those of the later
    one. *)
Theorem revisions_draw_alike (w : World) (value : Z) :
  Rev1.updateDisplayData w = updateDisplay w
  /\ Rev1.printResetAnimation w = presentResetAnimation w
  /\ Rev1.showTemperature value = printTwoDigitValue value 6
  /\ Rev1.showHumidity value = printTwoDigitValue value 2.
Proof.
  split; [apply updateDisplayData_updateDisplay|].
  split; [reflexivity|].
  split; [apply showTemperature_printTwoDigitValue
         | apply showHumidity_printTwoDigitValue].
Qed.

Lemma Rev1_onActionButton (w : World) :
  Rev1.onActionButton w = onActionButton w.
Proof.
  unfold Rev1.onActionButton, onActionButton. cbv zeta.
  change HUMIDIFIER_THRESHOLD_STEPS with 2.
  change HUMIDIFIER_THRESHOLD_MININUM with 60.
  change (100 - 2) with 98.
  destruct (currentMode w);
    repeat first
      [ rewrite (draw_ext _ _ _ updateDisplayData_updateDisplay)
      | rewrite (draw_ext _ _ _ printResetAnimation_presentResetAnimation) ];
    reflexivity.
Qed.

Lemma Rev1_onNextModeButton (w : World) :
  Rev1.onNextModeButton w = onNextModeButton w.
Proof.
  unfold Rev1.onNextModeButton, onNextModeButton. cbv zeta.
  apply draw_ext, updateDisplayData_updateDisplay.
Qed.

(** X21. Both button handlers of the earlier revision behave exactly as
    those of the later one, in every state: same resulting state, same
    library calls. *)
Theorem revisions_handle_buttons_alike (w : World) :
  Rev1.onActionButton w = onActionButton w
  /\ Rev1.onNextModeButton w = onNextModeButton w.
Proof. split; [apply Rev1_onActionButton | apply Rev1_onNextModeButton]. Qed.

Lemma Rev1_updateRelayStatus (w : World) :
  Cfg.humidifierLowerOnThreshold (persistentConfiguration w) = 80 ->
  Cfg.humidifierUpperOffThreshold (persistentConfiguration w) = 95 ->
  Rev1.updateRelayStatus w = updateRelayStatus w.
Proof.
  intros Hlower Hupper. unfold Rev1.updateRelayStatus, updateRelayStatus.
  rewrite Hlower, Hupper. reflexivity.
Qed.

(** X22. The relay controller of the earlier revision is the later one
    with the thresholds fixed at 80 and 95: the two agree on every state
    whose configured thresholds are 80 and 95, and the earlier one takes
    no notice of the configured thresholds at all.  With the default
    configuration (upper threshold 96) they differ: at 95 % the earlier
    revision switches a running relay off, the later one keeps it on. *)
Theorem revisions_relay (w : World) (lower upper : Z) :
  (Cfg.humidifierLowerOnThreshold (persistentConfiguration w) = 80 ->
   Cfg.humidifierUpperOffThreshold (persistentConfiguration w) = 95 ->
   Rev1.updateRelayStatus w = updateRelayStatus w)
  /\ humidifierOn
       (Rev1.updateRelayStatus
          (set_persistentConfiguration
             (Cfg.set_upper upper
                (Cfg.set_lower lower (persistentConfiguration w))) w))
     = humidifierOn (Rev1.updateRelayStatus w)
  /\ (let running :=
        set_humidifierOn true
          (set_liveData (mkDisplayData 21 95) (boot Cfg.default)) in
      humidifierOn (Rev1.updateRelayStatus running) = false
      /\ humidifierOn (updateRelayStatus running) = true).
Proof.
  split; [apply Rev1_updateRelayStatus|].
  split; [|split; reflexivity].
  unfold Rev1.updateRelayStatus. cbv zeta. rewrite !perform_humidifierOn.
  destruct w as [cfg on mode mst lv mx mn br init nxt ee pin clk lg].
  cbn [set_persistentConfiguration persistentConfiguration humidifierOn
       liveData].
  split_conditions; reflexivity.
Qed.

Lemma revisions_relay_witness :
  Rev1.updateRelayStatus (set_liveData (mkDisplayData 21 80) (editing live 80 95))
  = updateRelayStatus (set_liveData (mkDisplayData 21 80) (editing live 80 95)).
Proof.
  refine (proj1 (revisions_relay
                   (set_liveData (mkDisplayData 21 80) (editing live 80 95))
                   0 0) _ _).
  - reflexivity.
  - reflexivity.
Defined.

(** X23. An iteration of the earlier revision's main loop is the same
    as one of the later revision's whenever it does not sample the
    sensor, and also when it samples while the action button does not
    fire and the configured thresholds are 80 and 95. *)
Theorem revisions_loop (i : Inputs) (w : World) :
  (samplingTick i w = false -> Rev1.loop i w = loop i w)
  /\ (actionButtonFires i = false ->
      Cfg.humidifierLowerOnThreshold (persistentConfiguration w) = 80 ->
      Cfg.humidifierUpperOffThreshold (persistentConfiguration w) = 95 ->
      Rev1.loop i w = loop i w).
Proof.
  unfold Rev1.loop, loop. cbv zeta. rewrite loop_now.
  set (w1 := perform (delay 2) (set_clock _ w)).
  assert (Q1 : quiet w w1) by (subst w1; quiet_steps).
  assert (C1 : persistentConfiguration w1 = persistentConfiguration w)
    by (subst w1; rewrite perform_persistentConfiguration; reflexivity).
  clearbody w1.
  rewrite Rev1_onActionButton.
  set (w2 := if actionButtonFires i then onActionButton w1 else w1).
  assert (Q2 : quiet w w2).
  { apply (quiet_trans _ _ _ Q1). subst w2. apply quiet_if.
    - apply onActionButton_quiet.
    - apply quiet_same; reflexivity. }
  rewrite Rev1_onNextModeButton.
  set (w3 := if nextModeButtonFires i then onNextModeButton w2 else w2).
  assert (Q3 : quiet w w3).
  { apply (quiet_trans _ _ _ Q2). subst w3. apply quiet_if.
    - apply onNextModeButton_quiet.
    - apply quiet_same; reflexivity. }
  assert (N3 : nextSensorSampling w3 = nextSensorSampling w) by apply Q3.
  rewrite !(draw_ext _ _ _ updateDisplayData_updateDisplay), N3.
  split.
  - unfold samplingTick. intros ->. reflexivity.
  - intros Haction Hlower Hupper.
    assert (C3 : persistentConfiguration w3 = persistentConfiguration w).
    { subst w3 w2. rewrite Haction.
      destruct (nextModeButtonFires i);
        rewrite ?onNextModeButton_persistentConfiguration; exact C1. }
    destruct (_ >? _); [|reflexivity].
    rewrite Rev1_updateRelayStatus; [reflexivity| |];
      rewrite updateSensorData_persistentConfiguration;
      cbn [persistentConfiguration set_nextSensorSampling];
      rewrite C3; assumption.
Qed.

Lemma revisions_loop_witness :
  let i := mkInputs 1 false true 2000 (mkDisplayData 21 70) in
  Rev1.loop i (editing live 80 95) = loop i (editing live 80 95).
Proof.
  cbv zeta.
  refine (proj2 (revisions_loop
                   (mkInputs 1 false true 2000 (mkDisplayData 21 70))
                   (editing live 80 95)) _ _ _); reflexivity.
Defined.

(** ** What the action button writes, and the final redraw *)

Lemma draw_updateDisplay_ends_with_redraw (w : World) :
  ends_with_redraw (draw updateDisplay w).
Proof.
  exists (log w). rewrite draw_updateDisplay, updateDisplay_set_log.
  destruct w; reflexivity.
Qed.

(** X24. Both button handlers and every iteration of the main loop end
    by drawing the screen of the state they leave behind: the last
    library calls issued are exactly [updateDisplay] of the resulting
    state. *)
Theorem handlers_end_with_redraw (w : World) (i : Inputs) :
  ends_with_redraw (onActionButton w)
  /\ ends_with_redraw (onNextModeButton w)
  /\ ends_with_redraw (loop i w).
Proof.
  split; [|split].
  - unfold onActionButton. cbv zeta. apply draw_updateDisplay_ends_with_redraw.
  - unfold onNextModeButton. cbv zeta.
    apply draw_updateDisplay_ends_with_redraw.
  - unfold loop. cbv zeta. apply draw_updateDisplay_ends_with_redraw.
Qed.

Lemma updateDisplay_after_put (c : Cfg.PersistentConfiguration) (w : World) :
  updateDisplay (perform (EEPROM_put 0 c) w) = updateDisplay w.
Proof. destruct w; reflexivity. Qed.

(** X25. A press of the action button writes the EEPROM exactly once in
    the three configuration modes, namely the whole new record at address
    0 before the redraw of the new state, and not at all in the live, min
    and max modes. *)
Theorem onActionButton_eeprom_writes (w : World) :
  let w' := onActionButton w in
  (In (currentMode w)
      [humidifierEnabled; humidifierLowerOnThreshold;
       humidifierUpperOffThreshold] ->
   log w' = log w ++ EEPROM_put 0 (persistentConfiguration w')
                     :: updateDisplay w')
  /\ (In (currentMode w) [live; min; max] ->
      exists calls, log w' = log w ++ calls /\ eepromWrites calls = []).
Proof.
  cbv zeta. split; intros Hmode; cbn [In] in Hmode.
  - unfold onActionButton. cbv zeta.
    destruct Hmode as [<- | [<- | [<- | []]]];
      rewrite draw_updateDisplay, updateDisplay_set_log,
        updateDisplay_after_put;
      cbn [log set_log persistentConfiguration];
      rewrite perform_log, perform_persistentConfiguration, <- app_assoc;
      cbn [app]; f_equal;
      push_projection log; reflexivity.
  - unfold onActionButton, draw. cbv zeta.
    destruct Hmode as [<- | [<- | [<- | []]]];
      rewrite ?perform_all_log, ?perform_log.
    + push_projection log.
      eexists. rewrite <- app_assoc. split; [reflexivity|].
      rewrite eepromWrites_app, (proj2 (updateDisplay_board _)).
      reflexivity.
    + eexists. cbn [log set_minData]. rewrite <- !app_assoc.
      split; [reflexivity|].
      rewrite !eepromWrites_app, !(proj2 (updateDisplay_board _)),
        (proj2 (presentResetAnimation_board _)). reflexivity.
    + eexists. cbn [log set_maxData]. rewrite <- !app_assoc.
      split; [reflexivity|].
      rewrite !eepromWrites_app, !(proj2 (updateDisplay_board _)),
        (proj2 (presentResetAnimation_board _)). reflexivity.
Qed.

Lemma onActionButton_eeprom_writes_witness :
  log (onActionButton (editing humidifierEnabled 80 96))
  = log (editing humidifierEnabled 80 96)
    ++ EEPROM_put 0
         (persistentConfiguration
            (onActionButton (editing humidifierEnabled 80 96)))
       :: updateDisplay (onActionButton (editing humidifierEnabled 80 96)).
Proof.
  refine (proj1 (onActionButton_eeprom_writes
                   (editing humidifierEnabled 80 96)) _).
  cbn. auto.
Defined.
